(** * shopify-ga4-mp: the Shopify order webhook forwarded to GA4 Measurement Protocol

    A shallow embedding of [api/shopify-webhook.js] and the properties its
    specification states about it.

    The handler is JavaScript: it works on loosely typed values coming out of
    [JSON.parse], coerces them with [||], [String] and [parseFloat], and may
    throw at almost every step.  The embedding keeps that: values are an
    inductive type, every operation that can throw returns in an error monad,
    and the handler body runs in a state-and-error monad whose state records
    the HTTP responses sent and the outbound calls made. *)

From Stdlib Require Import ZArith List String Ascii Bool.
From Stdlib Require Import Floats.SpecFloat Lia.
Import ListNotations.
Local Set Warnings "-register-all".
Local Open Scope string_scope.
Local Open Scope Z_scope.

(** ** Text

    A JavaScript string is kept as the list of bytes of its UTF-8 encoding
    (Rocq's [string]).  Emptiness, equality and concatenation agree with the
    UTF-16 original on well-formed strings, and [Buffer.from(s)] is the
    string itself. *)

Module Text.

Definition code (c : ascii) : Z := Z.of_nat (nat_of_ascii c).

Fixpoint map_string (f : ascii -> ascii) (s : string) : string :=
  match s with
  | EmptyString => EmptyString
  | String c r => String (f c) (map_string f r)
  end.

Definition chr (z : Z) : ascii := ascii_of_nat (Z.to_nat z).

Definition is_digit (c : ascii) : bool := (48 <=? code c) && (code c <=? 57).

Definition digit_val (c : ascii) : Z := code c - 48.

Definition digit_chr (d : Z) : ascii := chr (48 + d).

(** The double quote character. *)
Definition dquote : ascii := "034"%char.

(** Text written with single quotes where JSON has double quotes. *)
Definition json_text (s : string) : string :=
  map_string (fun c => if Ascii.eqb c "'" then dquote else c) s.

Definition is_upper (c : ascii) : bool := (65 <=? code c) && (code c <=? 90).

Definition lower_ascii (c : ascii) : ascii :=
  if is_upper c then chr (code c + 32) else c.

(** [s.toLowerCase()].  Only ASCII letters are mapped.  The handler uses the
    result solely to compare an attribute name with one of its ASCII keys,
    none of which contains the letter k; the one character outside ASCII
    whose lower case is pure ASCII is the Kelvin sign (to k), so every such
    comparison comes out as it does under full Unicode case mapping. *)
Definition toLowerCase (s : string) : string := map_string lower_ascii s.

Definition first_is (c : ascii) (s : string) : bool :=
  match s with
  | String d _ => Ascii.eqb c d
  | EmptyString => false
  end.

Fixpoint starts_with (p s : string) : bool :=
  match p, s with
  | EmptyString, _ => true
  | String a p', String b s' => Ascii.eqb a b && starts_with p' s'
  | String _ _, EmptyString => false
  end.

(** [s.includes(p)] *)
Fixpoint includes (s p : string) : bool :=
  starts_with p s ||
  match s with
  | EmptyString => false
  | String _ r => includes r p
  end.

Fixpoint drop (n : nat) (s : string) : string :=
  match n, s with
  | O, _ => s
  | S n', String _ r => drop n' r
  | S _, EmptyString => EmptyString
  end.

Fixpoint repeat_char (c : ascii) (n : nat) : string :=
  match n with
  | O => EmptyString
  | S n' => String c (repeat_char c n')
  end.

Fixpoint take (n : nat) (s : string) : string :=
  match n, s with
  | O, _ => EmptyString
  | S n', String c r => String c (take n' r)
  | S _, EmptyString => EmptyString
  end.

Definition bytes (s : string) : list Z := List.map code (list_ascii_of_string s).

(** Decimal digits of a natural number, most significant first. *)
Fixpoint digits_fuel (fuel : nat) (n : Z) (acc : string) : string :=
  match fuel with
  | O => acc
  | S f =>
      let acc' := String (digit_chr (n mod 10)) acc in
      if n <? 10 then acc' else digits_fuel f (n / 10) acc'
  end.

Definition decimal (n : Z) : string :=
  digits_fuel (S (Z.to_nat (Z.log2 n))) n EmptyString.

End Text.

(** ** Numbers

    A JavaScript number is an IEEE 754 binary64 value: [spec_float] at
    precision 53 and maximal exponent 1024.  Decimal text is converted with
    correct rounding (to nearest, ties to even), and [Number::toString] finds
    the shortest digit string that converts back to the number. *)

Module Num.

Definition number : Type := spec_float.

Definition prec : Z := 53.
Definition emax : Z := 1024.

Definition NaN : number := S754_nan.

(** The double nearest to [(-1)^neg * m * 10^e], for [0 <= m]. *)
Definition of_decimal (neg : bool) (m e : Z) : number :=
  match m with
  | Zpos p =>
      if 0 <=? e then binary_round prec emax neg (Z.to_pos (m * 10 ^ e)) 0
      else
        let '(q, e', l) := SFdiv_core_binary prec emax m 0 (10 ^ (- e)) 0 in
        binary_round_aux prec emax neg q e' l
  | _ => S754_zero neg
  end.

Definition of_Z (z : Z) : number := of_decimal (z <? 0) (Z.abs z) 0.

Definition zero : number := S754_zero false.
Definition one : number := Eval vm_compute in of_Z 1.

(** [Number.isFinite(x)] for a number [x] *)
Definition isFinite (x : number) : bool :=
  match x with
  | S754_zero _ | S754_finite _ _ _ => true
  | S754_infinity _ | S754_nan => false
  end.

(** [ToBoolean] on numbers: [+0], [-0] and [NaN] are falsy. *)
Definition truthy (x : number) : bool :=
  match x with
  | S754_zero _ | S754_nan => false
  | S754_infinity _ | S754_finite _ _ _ => true
  end.

(** A finite number that is an integer and at least one. *)
Definition is_integer_ge1 (x : number) : bool :=
  match x with
  | S754_finite false m e =>
      if 0 <=? e then true
      else (Zpos m mod 2 ^ (- e) =? 0)
  | _ => false
  end.

(** *** Number::toString *)

(** [m * 2^e < 10^j] *)
Definition lt_pow10 (m e j : Z) : bool :=
  m * 2 ^ Z.max e 0 * 10 ^ Z.max (- j) 0 <? 2 ^ Z.max (- e) 0 * 10 ^ Z.max j 0.

Definition scaled_num (m e p : Z) : Z := m * 2 ^ Z.max e 0 * 10 ^ Z.max p 0.
Definition scaled_den (e p : Z) : Z := 2 ^ Z.max (- e) 0 * 10 ^ Z.max (- p) 0.

(** The [n] with [10^(n-1) <= m * 2^e < 10^n], searched upwards from an
    estimate that is at most one too small. *)
Fixpoint magnitude_from (fuel : nat) (m e j : Z) : Z :=
  match fuel with
  | O => j
  | S f => if lt_pow10 m e j then j else magnitude_from f m e (j + 1)
  end.

Definition magnitude (m e : Z) : Z :=
  magnitude_from 5 m e ((Z.log2 m + e) * 1233 / 4096 - 1).

(** For [k = 1, 2, ...] digits, the two [k]-digit candidates around
    [m * 2^e / 10^(n-k)]; the first [k] at which one of them converts back
    to [x] gives the digits, the closer candidate winning (the even one on a
    tie). *)
Fixpoint shortest (fuel : nat) (x : number) (m e n k : Z) : Z * Z * Z :=
  let num := scaled_num m e (k - n) in
  let den := scaled_den e (k - n) in
  let lo := num / den in
  let hi := lo + 1 in
  let ok_lo := SFeqb (of_decimal false lo (n - k)) x in
  let ok_hi := SFeqb (of_decimal false hi (n - k)) x in
  let r := num mod den in
  let pick :=
    if ok_lo && ok_hi then
      match 2 * r ?= den with
      | Lt => lo
      | Gt => hi
      | Eq => if Z.even lo then lo else hi
      end
    else if ok_lo then lo else hi in
  let found := if pick =? 10 ^ k then (10 ^ (k - 1), k, n + 1) else (pick, k, n) in
  match fuel with
  | O => found
  | S f => if ok_lo || ok_hi then found else shortest f x m e n (k + 1)
  end.

Definition zeros (n : Z) : string := Text.repeat_char "0"%char (Z.to_nat n).

Definition exponent_text (ex : Z) : string :=
  (if ex <? 0 then "-" else "+") ++ Text.decimal (Z.abs ex).

(** The layout rules of Number::toString for digits [s], digit count [k] and
    decimal exponent [n]. *)
Definition format (s k n : Z) : string :=
  let ds := Text.decimal s in
  if (k <=? n) && (n <=? 21) then ds ++ zeros (n - k)
  else if (0 <? n) && (n <=? 21) then
    Text.take (Z.to_nat n) ds ++ "." ++ Text.drop (Z.to_nat n) ds
  else if (-6 <? n) && (n <=? 0) then "0." ++ zeros (- n) ++ ds
  else if k =? 1 then ds ++ "e" ++ exponent_text (n - 1)
  else Text.take 1 ds ++ "." ++ Text.drop 1 ds ++ "e" ++ exponent_text (n - 1).

Definition to_string (x : number) : string :=
  match x with
  | S754_nan => "NaN"
  | S754_zero _ => "0"
  | S754_infinity s => if s then "-Infinity" else "Infinity"
  | S754_finite s m e =>
      let '(d, k, n) :=
        shortest 16 (S754_finite false m e) (Zpos m) e (magnitude (Zpos m) e) 1 in
      (if s then "-" else "") ++ format d k n
  end.

End Num.

(** ** Node's [crypto]: HMAC-SHA256 and base64

    [crypto.createHmac("sha256", key).update(msg, "utf8").digest("base64")]
    computed on bytes (integers below 256), words being integers below
    [2^32] with the wrap-around written out. *)

Module Crypto.

Definition w32 (x : Z) : Z := x mod 2 ^ 32.

Definition rotr (n x : Z) : Z := Z.lor (Z.shiftr x n) (w32 (Z.shiftl x (32 - n))).

Definition not32 (x : Z) : Z := Z.lxor x (2 ^ 32 - 1).

Definition Ch (x y z : Z) : Z := Z.lxor (Z.land x y) (Z.land (not32 x) z).

Definition Maj (x y z : Z) : Z :=
  Z.lxor (Z.lxor (Z.land x y) (Z.land x z)) (Z.land y z).

Definition bsig0 (x : Z) : Z := Z.lxor (Z.lxor (rotr 2 x) (rotr 13 x)) (rotr 22 x).
Definition bsig1 (x : Z) : Z := Z.lxor (Z.lxor (rotr 6 x) (rotr 11 x)) (rotr 25 x).
Definition ssig0 (x : Z) : Z := Z.lxor (Z.lxor (rotr 7 x) (rotr 18 x)) (Z.shiftr x 3).
Definition ssig1 (x : Z) : Z := Z.lxor (Z.lxor (rotr 17 x) (rotr 19 x)) (Z.shiftr x 10).

(** The round constants and the initial hash value are, as FIPS 180-4
    defines them, the first thirty-two bits of the fractional parts of the
    cube roots of the first sixty-four primes and of the square roots of the
    first eight. *)
Definition is_prime (n : Z) : bool :=
  (1 <? n)
  && forallb (fun d => negb (n mod d =? 0))
       (List.map Z.of_nat (seq 2 (Z.to_nat n - 2))).

Definition primes_below (n : nat) : list Z :=
  filter is_prime (List.map Z.of_nat (seq 0 n)).

(** The integer cube root of [x], found bit by bit from the top. *)
Fixpoint cube_root (bits : nat) (x r : Z) : Z :=
  match bits with
  | O => r
  | S b =>
      let c := r + 2 ^ Z.of_nat b in
      if c * c * c <=? x then cube_root b x c else cube_root b x r
  end.

Definition frac_cube_root (p : Z) : Z := cube_root 40 (p * 2 ^ 96) 0 mod 2 ^ 32.

Definition frac_square_root (p : Z) : Z := Z.sqrt (p * 2 ^ 64) mod 2 ^ 32.

Definition K256 : list Z :=
  Eval vm_compute in List.map frac_cube_root (primes_below 312).

Record hstate : Type := HState {
  ha : Z; hb : Z; hc : Z; hd : Z; he : Z; hf : Z; hg : Z; hh : Z
}.

Definition H0 : hstate :=
  Eval vm_compute in
    let h := fun i => frac_square_root (nth i (primes_below 20) 0) in
    HState (h 0%nat) (h 1%nat) (h 2%nat) (h 3%nat) (h 4%nat) (h 5%nat) (h 6%nat) (h 7%nat).

(** The message schedule, newest word first: sixteen block words extended
    to sixty-four. *)
Fixpoint schedule (n : nat) (rev_w : list Z) : list Z :=
  match n with
  | O => rev_w
  | S n' =>
      let w := w32 (ssig1 (nth 1 rev_w 0) + nth 6 rev_w 0
                    + ssig0 (nth 14 rev_w 0) + nth 15 rev_w 0) in
      schedule n' (w :: rev_w)
  end.

Definition round (s : hstate) (kw : Z * Z) : hstate :=
  let t1 := w32 (hh s + bsig1 (he s) + Ch (he s) (hf s) (hg s) + fst kw + snd kw) in
  let t2 := w32 (bsig0 (ha s) + Maj (ha s) (hb s) (hc s)) in
  HState (w32 (t1 + t2)) (ha s) (hb s) (hc s) (w32 (hd s + t1)) (he s) (hf s) (hg s).

Definition compress (s : hstate) (block : list Z) : hstate :=
  let w := rev (schedule 48 (rev block)) in
  let r := fold_left round (combine K256 w) s in
  HState (w32 (ha s + ha r)) (w32 (hb s + hb r)) (w32 (hc s + hc r))
         (w32 (hd s + hd r)) (w32 (he s + he r)) (w32 (hf s + hf r))
         (w32 (hg s + hg r)) (w32 (hh s + hh r)).

(** Big-endian bytes of a word of [n] bytes. *)
Fixpoint be_bytes (n : nat) (x : Z) : list Z :=
  match n with
  | O => []
  | S n' => (Z.shiftr x (8 * Z.of_nat n')) mod 256 :: be_bytes n' x
  end.

Fixpoint be_words (fuel : nat) (bs : list Z) : list Z :=
  match fuel, bs with
  | S f, a :: b :: c :: d :: r =>
      (Z.shiftl a 24 + Z.shiftl b 16 + Z.shiftl c 8 + d) :: be_words f r
  | _, _ => []
  end.

Definition pad (msg : list Z) : list Z :=
  let len := Z.of_nat (List.length msg) in
  let k := (55 - len) mod 64 in
  (msg ++ 0x80 :: repeat 0 (Z.to_nat k) ++ be_bytes 8 (8 * len))%list.

Fixpoint blocks (fuel : nat) (ws : list Z) (s : hstate) : hstate :=
  match fuel, ws with
  | S f, _ :: _ => blocks f (skipn 16 ws) (compress s (firstn 16 ws))
  | _, _ => s
  end.

Definition sha256 (msg : list Z) : list Z :=
  let bs := pad msg in
  let ws := be_words (List.length bs) bs in
  let s := blocks (List.length ws) ws H0 in
  flat_map (be_bytes 4)
    [ha s; hb s; hc s; hd s; he s; hf s; hg s; hh s].

Definition block_key (key : list Z) : list Z :=
  let k := if (64 <? Z.of_nat (List.length key)) then sha256 key else key in
  (k ++ repeat 0 (64 - List.length k))%list.

Definition hmac_sha256 (key msg : list Z) : list Z :=
  let k := block_key key in
  let ipad := List.map (Z.lxor 0x36) k in
  let opad := List.map (Z.lxor 0x5c) k in
  sha256 (opad ++ sha256 (ipad ++ msg))%list.

Definition b64_alphabet : string :=
  "ABCDEFGHIJKLMNOPQRSTUVWXYZabcdefghijklmnopqrstuvwxyz0123456789+/".

Definition b64_char (i : Z) : ascii :=
  match String.get (Z.to_nat i) b64_alphabet with
  | Some c => c
  | None => "="%char
  end.

Fixpoint base64 (bs : list Z) : string :=
  match bs with
  | [] => ""
  | [a] =>
      String (b64_char (Z.shiftr a 2))
        (String (b64_char (Z.shiftl (a mod 4) 4)) "==")
  | [a; b] =>
      String (b64_char (Z.shiftr a 2))
        (String (b64_char (Z.shiftl (a mod 4) 4 + Z.shiftr b 4))
           (String (b64_char (Z.shiftl (b mod 16) 2)) "="))
  | a :: b :: c :: r =>
      String (b64_char (Z.shiftr a 2))
        (String (b64_char (Z.shiftl (a mod 4) 4 + Z.shiftr b 4))
           (String (b64_char (Z.shiftl (b mod 16) 2 + Z.shiftr c 6))
              (String (b64_char (c mod 64)) (base64 r))))
  end.

(** [createHmac("sha256", key).update(msg, "utf8").digest("base64")] *)
Definition hmac_sha256_base64 (key msg : string) : string :=
  base64 (hmac_sha256 (Text.bytes key) (Text.bytes msg)).

End Crypto.

(** ** JavaScript values and coercions *)

Module JS.

Inductive value : Type :=
| VUndefined
| VNull
| VBool (b : bool)
| VNum (n : Num.number)
| VStr (s : string)
| VArr (elems : list value)
| VObj (props : list (string * value)).

Inductive exn : Type := TypeError | SyntaxError | RangeError.

(** A computation that returns or throws. *)
Inductive result (A : Type) : Type :=
| Ok (a : A)
| Throw (e : exn).

Arguments Ok {A} a.
Arguments Throw {A} e.

Definition bind {A B : Type} (m : result A) (f : A -> result B) : result B :=
  match m with
  | Ok a => f a
  | Throw e => Throw e
  end.

Notation "x <- m ;; k" := (bind m (fun x => k))
  (at level 61, m at next level, right associativity).

Fixpoint map_result {A B : Type} (f : A -> result B) (l : list A) : result (list B) :=
  match l with
  | [] => Ok []
  | x :: r => y <- f x ;; ys <- map_result f r ;; Ok (y :: ys)
  end.

(** [ToBoolean] *)
Definition truthy (v : value) : bool :=
  match v with
  | VUndefined | VNull => false
  | VBool b => b
  | VNum n => Num.truthy n
  | VStr s => negb (String.eqb s "")
  | VArr _ | VObj _ => true
  end.

(** [a || b] with [a] already evaluated; [b] is evaluated only on demand. *)
Definition or_else (a : value) (b : result value) : result value :=
  if truthy a then Ok a else b.

(** [a || b] where neither side can throw. *)
Definition or_val (a b : value) : value := if truthy a then a else b.

Notation "a ||| b" := (bind a (fun x => or_else x b))
  (at level 50, left associativity).

Definition nullish (v : value) : bool :=
  match v with
  | VUndefined | VNull => true
  | _ => false
  end.

Fixpoint lookup (k : string) (ps : list (string * value)) : option value :=
  match ps with
  | [] => None
  | (k', v) :: r => if String.eqb k k' then Some v else lookup k r
  end.

Definition has_key (k : string) (ps : list (string * value)) : bool :=
  match lookup k ps with
  | Some _ => true
  | None => false
  end.

Fixpoint all_digits (s : string) : bool :=
  match s with
  | EmptyString => true
  | String c r => Text.is_digit c && all_digits r
  end.

Fixpoint digits_value (s : string) (acc : Z) : Z :=
  match s with
  | EmptyString => acc
  | String c r => digits_value r (10 * acc + Text.digit_val c)
  end.

(** A property key that is an array index: a canonical decimal numeral
    below [2^32 - 1]. *)
Definition array_index (k : string) : option Z :=
  match k with
  | EmptyString => None
  | String c r =>
      if all_digits k && (negb (Ascii.eqb c "0") || String.eqb r "")
         && (String.length k <=? 10)%nat
      then
        let n := digits_value k 0 in
        if n <=? 4294967294 then Some n else None
      else None
  end.

(** The value of property [k] of a value that is neither [null] nor
    [undefined].  Objects and arrays coming out of [JSON.parse] have their own
    data properties only; every name the handler reads as data
    ([note_attributes], [id], [price], ...) is absent from the built-in
    prototypes, so a name that is not an own property reads as [undefined].
    An indexed read of a string yields its character at that position (kept
    here byte-wise; the handler only ever reads [.code] of it). *)
Definition prop (v : value) (k : string) : value :=
  match v with
  | VObj ps =>
      match lookup k ps with
      | Some x => x
      | None => VUndefined
      end
  | VArr l =>
      match array_index k with
      | Some i => nth (Z.to_nat i) l VUndefined
      | None => VUndefined
      end
  | VStr s =>
      match array_index k with
      | Some i =>
          match String.get (Z.to_nat i) s with
          | Some c => VStr (String c "")
          | None => VUndefined
          end
      | None => VUndefined
      end
  | _ => VUndefined
  end.

(** [v.k]: throws on [null] and [undefined]. *)
Definition get_member (v : value) (k : string) : result value :=
  if nullish v then Throw TypeError else Ok (prop v k).

(** [v?.k] *)
Definition get_opt (v : value) (k : string) : value :=
  if nullish v then VUndefined else prop v k.

(** [ToString], as [String(v)] and [parseFloat(v)] apply it.  An array joins
    its elements with commas, [null] and [undefined] elements giving the empty
    string.  An object without an own [toString] property gives
    ["[object Object]"]; with one (a JSON value, never callable) neither
    [toString] nor [valueOf] yields a primitive and the conversion throws. *)
Fixpoint ToString (v : value) : result string :=
  match v with
  | VUndefined => Ok "undefined"
  | VNull => Ok "null"
  | VBool b => Ok (if b then "true" else "false")
  | VNum n => Ok (Num.to_string n)
  | VStr s => Ok s
  | VArr l =>
      (fix join (first : bool) (l : list value) : result string :=
         match l with
         | [] => Ok ""
         | x :: r =>
             sx <- (if nullish x then Ok "" else ToString x) ;;
             sr <- join false r ;;
             Ok ((if first then "" else ",") ++ sx ++ sr)
         end) true l
  | VObj ps =>
      if has_key "toString" ps then Throw TypeError else Ok "[object Object]"
  end.

(** *** parseFloat *)

(** Leading [StrWhiteSpaceChar]s removed: the ASCII ones, and in UTF-8
    U+00A0, U+1680, U+2000..U+200A, U+2028, U+2029, U+202F, U+205F, U+3000
    and U+FEFF. *)
Fixpoint trim_start (s : string) : string :=
  match s with
  | String c1 r1 =>
      let a := Text.code c1 in
      if ((9 <=? a) && (a <=? 13)) || (a =? 32) then trim_start r1
      else
        match r1 with
        | String c2 r2 =>
            let b := Text.code c2 in
            if (a =? 0xC2) && (b =? 0xA0) then trim_start r2
            else
              match r2 with
              | String c3 r3 =>
                  let c := Text.code c3 in
                  if ((a =? 0xE1) && (b =? 0x9A) && (c =? 0x80))
                     || ((a =? 0xE2) && (b =? 0x80)
                         && (((0x80 <=? c) && (c <=? 0x8A))
                             || (c =? 0xA8) || (c =? 0xA9) || (c =? 0xAF)))
                     || ((a =? 0xE2) && (b =? 0x81) && (c =? 0x9F))
                     || ((a =? 0xE3) && (b =? 0x80) && (c =? 0x80))
                     || ((a =? 0xEF) && (b =? 0xBB) && (c =? 0xBF))
                  then trim_start r3
                  else s
              | EmptyString => s
              end
        | EmptyString => s
        end
  | EmptyString => s
  end.

(** The digits at the front of [s]: their value appended to [acc], how many
    there are, and the rest. *)
Fixpoint take_digits (s : string) (acc : Z) (count : Z) : Z * Z * string :=
  match s with
  | String c r =>
      if Text.is_digit c then take_digits r (10 * acc + Text.digit_val c) (count + 1)
      else (acc, count, s)
  | EmptyString => (acc, count, s)
  end.

(** An [ExponentPart] at the front of [s], if there is a complete one:
    its value and the rest. *)
Definition take_exponent (s : string) : option (Z * string) :=
  if Text.first_is "e" s || Text.first_is "E" s then
    let r := Text.drop 1 s in
    let neg := Text.first_is "-" r in
    let r' := if neg || Text.first_is "+" r then Text.drop 1 r else r in
    let '(v, n, rest) := take_digits r' 0 0 in
    if 0 <? n then Some (if neg then - v else v, rest) else None
  else None.

(** The longest prefix of [s] that is a [StrUnsignedDecimalLiteral], as a
    number of sign [neg]; [NaN] when there is none. *)
Definition unsigned_literal (neg : bool) (s : string) : Num.number :=
  if Text.starts_with "Infinity" s then S754_infinity neg
  else
    let '(ip, ni, r1) := take_digits s 0 0 in
    let '(m, nf, r2) :=
      if Text.first_is "." r1 then take_digits (Text.drop 1 r1) ip 0
      else (ip, 0, r1) in
    if (ni =? 0) && (nf =? 0) then Num.NaN
    else
      match take_exponent r2 with
      | Some (ex, _) => Num.of_decimal neg m (ex - nf)
      | None => Num.of_decimal neg m (- nf)
      end.

(** [parseFloat] of a string *)
Definition parseFloat_string (s : string) : Num.number :=
  let t := trim_start s in
  if Text.first_is "-" t then unsigned_literal true (Text.drop 1 t)
  else if Text.first_is "+" t then unsigned_literal false (Text.drop 1 t)
  else unsigned_literal false t.

(** [parseFloat(v)] *)
Definition parseFloat (v : value) : result Num.number :=
  s <- ToString v ;; Ok (parseFloat_string s).

(** *** Array.prototype.find and Array.prototype.map

    Called as methods: on anything but an array the method is missing (or,
    on an object with such a key, not callable) and the call throws.  The
    callback may throw; [find] stops at the first element it accepts. *)

Fixpoint find_first (p : value -> result bool) (l : list value) : result value :=
  match l with
  | [] => Ok VUndefined
  | a :: r => b <- p a ;; if b then Ok a else find_first p r
  end.

Definition array_find (arr : value) (p : value -> result bool) : result value :=
  match arr with
  | VArr l => find_first p l
  | _ => Throw TypeError
  end.

Definition array_map (arr : value) (f : value -> result value) : result value :=
  match arr with
  | VArr l => l' <- map_result f l ;; Ok (VArr l')
  | _ => Throw TypeError
  end.

(** A template literal hole [${x}] for an environment variable that may be
    unset. *)
Definition interpolate (x : option string) : string :=
  match x with
  | Some s => s
  | None => "undefined"
  end.

End JS.

(** ** JSON.parse and JSON.stringify *)

Module JSON.

Import JS.

Fixpoint skip_ws (s : string) : string :=
  match s with
  | String c r =>
      let a := Text.code c in
      if (a =? 32) || (a =? 9) || (a =? 10) || (a =? 13) then skip_ws r else s
  | EmptyString => s
  end.

Definition hex_val (c : ascii) : option Z :=
  let a := Text.code c in
  if (48 <=? a) && (a <=? 57) then Some (a - 48)
  else if (65 <=? a) && (a <=? 70) then Some (a - 55)
  else if (97 <=? a) && (a <=? 102) then Some (a - 87)
  else None.

(** UTF-8 of a code point; a lone surrogate is kept in the same three-byte
    form. *)
Definition utf8 (cp : Z) : list Z :=
  if cp <? 0x80 then [cp]
  else if cp <? 0x800 then [0xC0 + cp / 64; 0x80 + cp mod 64]
  else if cp <? 0x10000 then
    [0xE0 + cp / 4096; 0x80 + (cp / 64) mod 64; 0x80 + cp mod 64]
  else
    [0xF0 + cp / 262144; 0x80 + (cp / 4096) mod 64;
     0x80 + (cp / 64) mod 64; 0x80 + cp mod 64].

(** What a JSON string literal is made of: bytes written as they are and
    escaped UTF-16 code units. *)
Inductive unit16 : Type :=
| Raw (c : ascii)
| Esc (u : Z).

Definition simple_escape (c : ascii) : option Z :=
  let a := Text.code c in
  if a =? 34 then Some 34           (* quote *)
  else if a =? 92 then Some 92      (* backslash *)
  else if a =? 47 then Some 47      (* slash *)
  else if a =? 98 then Some 8       (* b *)
  else if a =? 102 then Some 12     (* f *)
  else if a =? 110 then Some 10     (* n *)
  else if a =? 114 then Some 13     (* r *)
  else if a =? 116 then Some 9      (* t *)
  else None.

(** The inside of a string literal up to its closing quote. *)
Fixpoint string_units (s : string) : option (list unit16 * string) :=
  match s with
  | EmptyString => None
  | String c r =>
      let a := Text.code c in
      if a =? 34 then Some ([], r)
      else if a <? 32 then None
      else if a =? 92 then
        match r with
        | String e r1 =>
            if Text.code e =? 117 then
              match r1 with
              | String h1 (String h2 (String h3 (String h4 r2))) =>
                  match hex_val h1, hex_val h2, hex_val h3, hex_val h4 with
                  | Some d1, Some d2, Some d3, Some d4 =>
                      match string_units r2 with
                      | Some (us, rest) =>
                          Some (Esc (4096 * d1 + 256 * d2 + 16 * d3 + d4) :: us, rest)
                      | None => None
                      end
                  | _, _, _, _ => None
                  end
              | _ => None
              end
            else
              match simple_escape e with
              | Some u =>
                  match string_units r1 with
                  | Some (us, rest) => Some (Esc u :: us, rest)
                  | None => None
                  end
              | None => None
              end
        | EmptyString => None
        end
      else
        match string_units r with
        | Some (us, rest) => Some (Raw c :: us, rest)
        | None => None
        end
  end.

Definition is_high (u : Z) : bool := (0xD800 <=? u) && (u <=? 0xDBFF).
Definition is_low (u : Z) : bool := (0xDC00 <=? u) && (u <=? 0xDFFF).

(** The bytes of the string the units denote; an escaped surrogate pair is
    one code point. *)
Fixpoint encode_units (us : list unit16) : list ascii :=
  match us with
  | [] => []
  | Raw c :: r => c :: encode_units r
  | Esc u :: r =>
      match r with
      | Esc v :: r' =>
          if is_high u && is_low v then
            (List.map Text.chr (utf8 (0x10000 + (u - 0xD800) * 1024 + (v - 0xDC00)))
               ++ encode_units r')%list
          else (List.map Text.chr (utf8 u) ++ encode_units r)%list
      | _ => (List.map Text.chr (utf8 u) ++ encode_units r)%list
      end
  end.

Definition parse_string (s : string) : option (string * string) :=
  match string_units s with
  | Some (us, rest) => Some (string_of_list_ascii (encode_units us), rest)
  | None => None
  end.

(** A JSON number at the front of [s]. *)
Definition parse_number (s : string) : option (Num.number * string) :=
  let neg := Text.first_is "-" s in
  let s1 := if neg then Text.drop 1 s else s in
  let '(ip, ni, r1) := take_digits s1 0 0 in
  if (ni =? 0) || (Text.first_is "0" s1 && (1 <? ni)) then None
  else
    let frac :=
      if Text.first_is "." r1 then
        let '(m, nf, r2) := take_digits (Text.drop 1 r1) ip 0 in
        if nf =? 0 then None else Some (m, nf, r2)
      else Some (ip, 0, r1) in
    match frac with
    | None => None
    | Some (m, nf, r2) =>
        if Text.first_is "e" r2 || Text.first_is "E" r2 then
          match take_exponent r2 with
          | Some (ex, r3) => Some (Num.of_decimal neg m (ex - nf), r3)
          | None => None
          end
        else Some (Num.of_decimal neg m (- nf), r2)
    end.

(** [CreateDataProperty]: a key already there keeps its place and takes the
    new value. *)
Fixpoint define (k : string) (v : value) (ps : list (string * value))
  : list (string * value) :=
  match ps with
  | [] => [(k, v)]
  | (k', v') :: r =>
      if String.eqb k k' then (k, v) :: r else (k', v') :: define k v r
  end.

Fixpoint insert_index (i : Z) (kv : string * value) (l : list (Z * (string * value)))
  : list (Z * (string * value)) :=
  match l with
  | [] => [(i, kv)]
  | (j, kv') :: r =>
      if i <? j then (i, kv) :: l else (j, kv') :: insert_index i kv r
  end.

(** The own properties of the object built from the members in source order:
    array-index keys first, ascending, then the other keys in order of first
    appearance. *)
Definition object_of (members : list (string * value)) : list (string * value) :=
  let ps := fold_left (fun acc kv => define (fst kv) (snd kv) acc) members [] in
  let idx :=
    fold_left
      (fun acc kv =>
         match array_index (fst kv) with
         | Some i => insert_index i kv acc
         | None => acc
         end) ps [] in
  (List.map snd idx
   ++ filter (fun kv => match array_index (fst kv) with Some _ => false | None => true end) ps)%list.

Fixpoint parse_value (fuel : nat) (s : string) : option (value * string) :=
  match fuel with
  | O => None
  | S f =>
      let t := skip_ws s in
      if Text.first_is "{" t then
        let r := skip_ws (Text.drop 1 t) in
        if Text.first_is "}" r then Some (VObj [], Text.drop 1 r)
        else
          match parse_members f r with
          | Some (ms, rest) => Some (VObj (object_of ms), rest)
          | None => None
          end
      else if Text.first_is "[" t then
        let r := skip_ws (Text.drop 1 t) in
        if Text.first_is "]" r then Some (VArr [], Text.drop 1 r)
        else
          match parse_elements f r with
          | Some (vs, rest) => Some (VArr vs, rest)
          | None => None
          end
      else if Text.first_is Text.dquote t then
        match parse_string (Text.drop 1 t) with
        | Some (x, rest) => Some (VStr x, rest)
        | None => None
        end
      else if Text.starts_with "true" t then Some (VBool true, Text.drop 4 t)
      else if Text.starts_with "false" t then Some (VBool false, Text.drop 5 t)
      else if Text.starts_with "null" t then Some (VNull, Text.drop 4 t)
      else
        match parse_number t with
        | Some (n, rest) => Some (VNum n, rest)
        | None => None
        end
  end
with parse_elements (fuel : nat) (s : string) : option (list value * string) :=
  match fuel with
  | O => None
  | S f =>
      match parse_value f s with
      | Some (v, r) =>
          let t := skip_ws r in
          if Text.first_is "," t then
            match parse_elements f (Text.drop 1 t) with
            | Some (vs, rest) => Some (v :: vs, rest)
            | None => None
            end
          else if Text.first_is "]" t then Some ([v], Text.drop 1 t)
          else None
      | None => None
      end
  end
with parse_members (fuel : nat) (s : string)
  : option (list (string * value) * string) :=
  match fuel with
  | O => None
  | S f =>
      let t := skip_ws s in
      if Text.first_is Text.dquote t then
        match parse_string (Text.drop 1 t) with
        | Some (k, r1) =>
            let t1 := skip_ws r1 in
            if Text.first_is ":" t1 then
              match parse_value f (Text.drop 1 t1) with
              | Some (v, r2) =>
                  let t2 := skip_ws r2 in
                  if Text.first_is "," t2 then
                    match parse_members f (Text.drop 1 t2) with
                    | Some (ms, rest) => Some ((k, v) :: ms, rest)
                    | None => None
                    end
                  else if Text.first_is "}" t2 then Some ([(k, v)], Text.drop 1 t2)
                  else None
              | None => None
              end
            else None
        | None => None
        end
      else None
  end.

(** [JSON.parse(text)]: the value, or a [SyntaxError].  Of two nested calls
    of the parser at least one has consumed a character, so twice the length
    of the text is fuel enough. *)
Definition parse (text : string) : result value :=
  match parse_value (2 * String.length text + 2) text with
  | Some (v, rest) =>
      match skip_ws rest with
      | EmptyString => Ok v
      | String _ _ => Throw SyntaxError
      end
  | None => Throw SyntaxError
  end.

(** *** JSON.stringify *)

Definition hex_digit (d : Z) : ascii :=
  if d <? 10 then Text.chr (48 + d) else Text.chr (87 + d).

Definition u_escape (u : Z) : string :=
  "\u" ++ String (hex_digit (u / 4096)) (String (hex_digit ((u / 256) mod 16))
            (String (hex_digit ((u / 16) mod 16)) (String (hex_digit (u mod 16)) ""))).

(** [QuoteJSONString] without the surrounding quotes. *)
Fixpoint quote_body (s : string) : string :=
  match s with
  | EmptyString => ""
  | String c r =>
      let a := Text.code c in
      if a =? 34 then String "\" (String Text.dquote (quote_body r))
      else if a =? 92 then "\\" ++ quote_body r
      else if a =? 8 then "\b" ++ quote_body r
      else if a =? 12 then "\f" ++ quote_body r
      else if a =? 10 then "\n" ++ quote_body r
      else if a =? 13 then "\r" ++ quote_body r
      else if a =? 9 then "\t" ++ quote_body r
      else if a <? 32 then u_escape a ++ quote_body r
      else
        match r with
        | String c2 (String c3 r3) =>
            let b := Text.code c2 in
            if (a =? 0xED) && (0xA0 <=? b) then
              u_escape (0xD000 + (b mod 64) * 64 + Text.code c3 mod 64)
                ++ quote_body r3
            else String c (quote_body r)
        | _ => String c (quote_body r)
        end
  end.

Definition quote (s : string) : string :=
  String Text.dquote (quote_body s ++ String Text.dquote EmptyString).

Fixpoint join (sep : string) (l : list string) : string :=
  match l with
  | [] => ""
  | [x] => x
  | x :: r => x ++ sep ++ join sep r
  end.

(** [SerializeJSONProperty]: [None] stands for [undefined], which an object
    leaves out together with its key and an array writes as [null]. *)
Fixpoint serialize (v : value) : option string :=
  match v with
  | VUndefined => None
  | VNull => Some "null"
  | VBool b => Some (if b then "true" else "false")
  | VNum n => Some (if Num.isFinite n then Num.to_string n else "null")
  | VStr s => Some (quote s)
  | VArr l =>
      let elems :=
        (fix go (l : list value) : list string :=
           match l with
           | [] => []
           | x :: r =>
               match serialize x with
               | Some t => t
               | None => "null"
               end :: go r
           end) l in
      Some ("[" ++ join "," elems ++ "]")
  | VObj ps =>
      let members :=
        (fix go (ps : list (string * value)) : list string :=
           match ps with
           | [] => []
           | (k, x) :: r =>
               match serialize x with
               | Some t => (quote k ++ ":" ++ t) :: go r
               | None => go r
               end
           end) ps in
      Some ("{" ++ join "," members ++ "}")
  end.

(** [JSON.stringify(v)] for a [v] that is not [undefined]. *)
Definition stringify (v : value) : string :=
  match serialize v with
  | Some t => t
  | None => "undefined"
  end.

End JSON.

(** ** The webhook: [api/shopify-webhook.js] *)

Module Webhook.

Import JS.

(** [process.env] *)
Record environment : Type := Env {
  env_GA4_MEASUREMENT_ID : option string;
  env_GA4_API_SECRET : option string;
  env_SHOPIFY_WEBHOOK_SECRET : option string;
  env_GA4_DEBUG_MODE : option string
}.

(** The incoming request: its method, its headers (as Node presents them, by
    lower-case name) and the chunks its body arrives in, each as the text it
    adds to the body.  The endpoint's [config] turns the body parser off, so
    the body reaches the handler as sent. *)
Record request : Type := Request {
  method : string;
  headers : string -> option string;
  chunks : list string
}.

(** A reply sent with [res.status(code).json(body)]. *)
Record response : Type := Response {
  status : Z;
  body : value
}.

(** A call made with [fetch]. *)
Record call : Type := Call {
  url : string;
  call_method : string;
  content_type : string;
  payload : string
}.

(** The collector and the network in front of it: the text of the reply to
    a call, or [None] when [fetch] or [text()] rejects. *)
Definition network : Type := call -> option string.

(** What one invocation leaves behind: the replies sent and the calls made,
    oldest first. *)
Record world : Type := World {
  sent : list response;
  calls : list call
}.

Definition start : world := World [] [].

(** The handler's effects: a computation passes the world along and returns
    or throws. *)
Definition M (A : Type) : Type := world -> result A * world.

Definition retM {A : Type} (a : A) : M A := fun w => (Ok a, w).

Definition bindM {A B : Type} (m : M A) (f : A -> M B) : M B :=
  fun w =>
    match m w with
    | (Ok a, w') => f a w'
    | (Throw e, w') => (Throw e, w')
    end.

Notation "x <~ m ;; k" := (bindM m (fun x => k))
  (at level 61, m at next level, right associativity).

Definition lift {A : Type} (r : result A) : M A := fun w => (r, w).

(** [res.status(code).json(body)] *)
Definition respond (code : Z) (b : value) : M unit :=
  fun w => (Ok tt, World (sent w ++ [Response code b])%list (calls w)).

(** [try { body } catch (e) { handler }] *)
Definition try_catch (m : M unit) (h : exn -> M unit) : M unit :=
  fun w =>
    match m w with
    | (Ok x, w') => (Ok x, w')
    | (Throw e, w') => h e w'
    end.

(** [crypto.timingSafeEqual(a, b)]: throws when the lengths differ. *)
Definition timingSafeEqual (a b : string) : result bool :=
  if Nat.eqb (String.length a) (String.length b)
  then Ok (String.eqb a b)
  else Throw RangeError.

(** [toNumber(v, fallback)]; every call leaves [fallback] at its default,
    [0]. *)
Definition toNumber (v : value) (fallback : Num.number) : result Num.number :=
  n <- parseFloat v ;;
  Ok (if Num.isFinite n then n else fallback).

(** [String(v)] as a value *)
Definition String_ (v : value) : result value :=
  s <- ToString v ;; Ok (VStr s).

(** [...(v ? { k: v } : {})] *)
Definition spread_if (k : string) (v : value) : list (string * value) :=
  if truthy v then [(k, v)] else [].

(** [x.k?.shop_money?.amount] *)
Definition shop_money_amount (x : value) (k : string) : result value :=
  s <- get_member x k ;;
  Ok (get_opt (get_opt s "shop_money") "amount").

(** *** Order to event *)

Definition attributes (order : value) : value :=
  or_val (get_opt order "note_attributes") (VArr []).

(** [(a) => a.name?.toLowerCase() === key.toLowerCase()] *)
Definition name_is (key : string) (a : value) : result bool :=
  n <- get_member a "name" ;;
  match n with
  | VUndefined | VNull => Ok false
  | VStr s => Ok (String.eqb (Text.toLowerCase s) (Text.toLowerCase key))
  | VBool _ | VNum _ | VArr _ | VObj _ => Throw TypeError
  end.

Definition getAttr (order : value) (key : string) : result value :=
  a <- array_find (attributes order) (name_is key) ;;
  Ok (get_opt a "value").

Definition clientId (order : value) : result value :=
  getAttr order "client_id"
  ||| getAttr order "_ga_cid"
  ||| (customer <- get_member order "customer" ;;
       if truthy (get_opt customer "id") then
         c <- get_member order "customer" ;;
         id <- get_member c "id" ;;
         String_ id
       else
         id <- get_member order "id" ;;
         String_ id).

Definition userId (order : value) : value :=
  or_val (get_opt (get_opt order "customer") "email") VNull.

(** The callback of [line_items.map]. *)
Definition line_item (order item : value) : result value :=
  id <- get_member item "product_id" ||| get_member item "sku"
        ||| get_member item "variant_id" ||| get_member item "id" ;;
  item_id <- String_ id ;;
  item_name <- get_member item "title" ||| get_member item "name" ;;
  quantity <- get_member item "quantity" ||| Ok (VNum Num.one) ;;
  p <- get_member item "price" ||| shop_money_amount item "price_set"
       ||| Ok (VNum Num.zero) ;;
  price <- toNumber p Num.zero ;;
  let item_brand := or_val (get_opt (get_opt order "line_items") "vendor") VUndefined in
  item_variant <- get_member item "variant_title" ||| Ok VUndefined ;;
  Ok (VObj [ ("item_id", item_id);
             ("item_name", item_name);
             ("quantity", quantity);
             ("price", VNum price);
             ("item_brand", item_brand);
             ("item_variant", item_variant) ]).

Definition items (order : value) : result value :=
  li <- get_member order "line_items" ||| Ok (VArr []) ;;
  mapped <- array_map li (line_item order) ;;
  Ok (or_val mapped (VArr [])).

(** The [params] object of the purchase event, given the attribution
    values and the items computed before it. *)
Definition params (order : value) (attribution : list (string * value))
  (items_v : value) : result value :=
  id <- get_member order "id" ;;
  transaction_id <- String_ id ;;
  v <- get_member order "total_price" ||| get_member order "current_total_price"
       ||| shop_money_amount order "total_price_set" ;;
  value_n <- toNumber v Num.zero ;;
  currency <- get_member order "currency" ||| get_member order "presentment_currency"
              ||| Ok (VStr "INR") ;;
  t <- get_member order "total_tax" ||| Ok (VNum Num.zero) ;;
  tax <- toNumber t Num.zero ;;
  s <- shop_money_amount order "total_shipping_price_set" ||| Ok (VNum Num.zero) ;;
  shipping <- toNumber s Num.zero ;;
  coupon <- (d <- get_member order "discount_codes" ;;
             Ok (get_opt (get_opt d "0") "code")) ||| Ok VUndefined ;;
  Ok (VObj ([ ("transaction_id", transaction_id);
              ("value", VNum value_n);
              ("currency", currency);
              ("tax", VNum tax);
              ("shipping", VNum shipping);
              ("coupon", coupon);
              ("items", items_v) ]
            ++ flat_map (fun kv => spread_if (fst kv) (snd kv)) attribution)%list).

Definition attribution_keys : list string :=
  [ "gclid"; "gbraid"; "wbraid"; "utm_source"; "utm_medium"; "utm_campaign";
    "utm_content"; "utm_term" ].

(** [const k = getAttr("k") || null] for each attribution key, in order. *)
Definition attribution (order : value) : result (list (string * value)) :=
  map_result
    (fun k => v <- getAttr order k ||| Ok VNull ;; Ok (k, v))
    attribution_keys.

Definition ga4Event (order : value) : result value :=
  cid <- clientId order ;;
  let uid := userId order in
  attr <- attribution order ;;
  items_v <- items order ;;
  client_id <- String_ cid ;;
  ps <- params order attr items_v ;;
  Ok (VObj ([ ("client_id", client_id) ]
            ++ spread_if "user_id" uid
            ++ [ ("non_personalized_ads", VBool false);
                 ("events", VArr [ VObj [ ("name", VStr "purchase");
                                          ("params", ps) ] ]) ])%list).

(** *** The handler *)

Section Handler.

Variable env : environment.
Variable net : network.

Definition MEASUREMENT_ID : option string := env_GA4_MEASUREMENT_ID env.
Definition API_SECRET : option string := env_GA4_API_SECRET env.

(** [process.env.SHOPIFY_WEBHOOK_SECRET || ""] *)
Definition SHOPIFY_WEBHOOK_SECRET : string :=
  match env_SHOPIFY_WEBHOOK_SECRET env with
  | Some s => s
  | None => EmptyString
  end.

Definition GA4_ENDPOINT : string :=
  "https://www.google-analytics.com/mp/collect?measurement_id="
  ++ interpolate MEASUREMENT_ID ++ "&api_secret=" ++ interpolate API_SECRET.

Definition GA4_DEBUG : string :=
  "https://www.google-analytics.com/debug/mp/collect?measurement_id="
  ++ interpolate MEASUREMENT_ID ++ "&api_secret=" ++ interpolate API_SECRET.

Definition verifyShopifyHmac (req : request) (rawBody : string) : result bool :=
  if String.eqb SHOPIFY_WEBHOOK_SECRET EmptyString then Ok true
  else
    match headers req "x-shopify-hmac-sha256" with
    | None => Ok false
    | Some hmacHeader =>
        if String.eqb hmacHeader EmptyString then Ok false
        else
          let digest := Crypto.hmac_sha256_base64 SHOPIFY_WEBHOOK_SECRET rawBody in
          timingSafeEqual hmacHeader digest
    end.

(** [process.env.GA4_DEBUG_MODE === "1" ? GA4_DEBUG : GA4_ENDPOINT] *)
Definition endpoint : string :=
  match env_GA4_DEBUG_MODE env with
  | Some mode => if String.eqb mode "1" then GA4_DEBUG else GA4_ENDPOINT
  | None => GA4_ENDPOINT
  end.

(** [await fetch(endpoint, { method, headers, body })] followed by
    [await gaRes.text()] *)
Definition fetch_text (target body_text : string) : M string :=
  fun w =>
    let c := Call target "POST" "application/json" body_text in
    let w' := World (sent w) (calls w ++ [c])%list in
    match net c with
    | Some text => (Ok text, w')
    | None => (Throw TypeError, w')
    end.

(** The body of the [try] block. *)
Definition handler_try (req : request) : M unit :=
  if negb (String.eqb (method req) "POST") then
    respond 405 (VObj [ ("error", VStr "Method not allowed") ])
  else
    let rawBody := String.concat EmptyString (chunks req) in
    authentic <~ lift (verifyShopifyHmac req rawBody) ;;
    if negb authentic then
      respond 401 (VObj [ ("error", VStr "Invalid HMAC signature") ])
    else
      order <~ lift (JSON.parse rawBody) ;;
      event <~ lift (ga4Event order) ;;
      text <~ fetch_text endpoint (JSON.stringify event) ;;
      respond 200
        (VObj [ ("status", VStr "ok");
                ("sent_to",
                 VStr (if Text.includes endpoint "/debug/" then "GA4 DEBUG" else "GA4"));
                ("ga_response", VStr text) ]).

(** The exception caught is written to the log and appears nowhere else. *)
Definition handler (req : request) : M unit :=
  try_catch (handler_try req)
    (fun _ => respond 500 (VObj [ ("error", VStr "Internal error") ])).

End Handler.

End Webhook.

(** ** The specification's words

    Definitions that follow the specification rather than the source; the
    theorems below compare the handler with them. *)

Module Spec.

Import JS Webhook.

(** Section 9: a field is read through an ordered list of extraction
    attempts, the first present value being taken. *)
Fixpoint first_present (candidates : list value) : option value :=
  match candidates with
  | [] => None
  | c :: r => if truthy c then Some c else first_present r
  end.

(** A numeric field: the number read from the first present candidate,
    degraded to the safe default when it does not read as one, and the
    default [0] when no candidate is present. *)
Definition numeric_field (candidates : list value) : result Num.number :=
  match first_present candidates with
  | Some c => toNumber c Num.zero
  | None => Ok Num.zero
  end.

(** The nested money-amount shape: [x.k.shop_money.amount], absent links
    giving an absent amount. *)
Definition nested_amount (x : value) (k : string) : value :=
  get_opt (get_opt (prop x k) "shop_money") "amount".

Definition total_value (order : value) : result Num.number :=
  numeric_field [ prop order "total_price";
                  prop order "current_total_price";
                  nested_amount order "total_price_set" ].

Definition tax (order : value) : result Num.number :=
  numeric_field [ prop order "total_tax" ].

Definition shipping (order : value) : result Num.number :=
  numeric_field [ nested_amount order "total_shipping_price_set" ].

Definition currency (order : value) : value :=
  match first_present [ prop order "currency"; prop order "presentment_currency" ] with
  | Some c => c
  | None => VStr "INR"
  end.

(** The [params] object of the one event of an envelope. *)
Definition event_params (ev : value) : value :=
  prop (prop (prop ev "events") "0") "params".

(** Step 2 of section 4.2: where the client identifier comes from, in
    priority order, a source counting as present when its value is truthy. *)
Inductive client_id_source (order : value) : value -> Prop :=
| from_client_id (v : value) :
    getAttr order "client_id" = Ok v -> truthy v = true ->
    client_id_source order v
| from_ga_cid (a v : value) :
    getAttr order "client_id" = Ok a -> truthy a = false ->
    getAttr order "_ga_cid" = Ok v -> truthy v = true ->
    client_id_source order v
| from_customer_id (a b : value) :
    getAttr order "client_id" = Ok a -> truthy a = false ->
    getAttr order "_ga_cid" = Ok b -> truthy b = false ->
    truthy (get_opt (prop order "customer") "id") = true ->
    client_id_source order (get_opt (prop order "customer") "id")
| from_order_id (a b : value) :
    getAttr order "client_id" = Ok a -> truthy a = false ->
    getAttr order "_ga_cid" = Ok b -> truthy b = false ->
    truthy (get_opt (prop order "customer") "id") = false ->
    client_id_source order (prop order "id").

(** A value whose string form can be empty: the empty string itself, and
    arrays (an empty one, or one of empty parts). *)
Definition may_print_empty (v : value) : bool :=
  match v with
  | VStr s => String.eqb s EmptyString
  | VArr _ => true
  | _ => false
  end.

(** The tracking attributes of an order, when they are a list. *)
Definition attribute_list (order : value) : list value :=
  match attributes order with
  | VArr l => l
  | _ => []
  end.

(** No tracking attribute is named [key], whatever the case of its name. *)
Definition no_attribute (order : value) (key : string) : Prop :=
  forall a, In a (attribute_list order) -> name_is key a <> Ok true.

(** Text that begins like a number: a digit, a point followed by a digit,
    or [Infinity]. *)
Definition starts_number (s : string) : bool :=
  Text.starts_with "Infinity" s
  || match s with
     | String c r => Text.is_digit c || (Ascii.eqb c "." && match r with
                                                          | String d _ => Text.is_digit d
                                                          | EmptyString => false
                                                          end)
     | EmptyString => false
     end.

(** Text with a numeric prefix: after white space and an optional sign it
    begins like a number.  The text as a whole need not be a number: 12abc
    has the prefix 12. *)
Definition has_numeric_prefix (s : string) : bool :=
  let t := trim_start s in
  if Text.first_is "-" t || Text.first_is "+" t then starts_number (Text.drop 1 t)
  else starts_number t.

(** The safe default of numeric extraction: a number that is not finite
    (NaN, an infinity) is replaced by [0]. *)
Definition finite_or_zero (x : Num.number) : Num.number :=
  if Num.isFinite x then x else Num.zero.

(** What a numeric field is read as: the number that [parseFloat] reads from
    the first present candidate, replaced by [0] when it is not finite; and
    [0] when no candidate is present. *)
Definition reads_as (candidates : list value) (n : Num.number) : Prop :=
  match first_present candidates with
  | Some c => exists x, parseFloat c = Ok x /\ n = finite_or_zero x
  | None => n = Num.zero
  end.

(** A decimal numeral: digits, then optionally a point and more digits. *)
Definition decimal_text (whole : string) (frac : option string) : string :=
  match frac with
  | Some f => whole ++ "." ++ f
  | None => whole
  end.

(** The number a decimal numeral denotes: the double nearest to it. *)
Definition decimal_number (whole : string) (frac : option string) : Num.number :=
  match frac with
  | Some f =>
      Num.of_decimal false (digits_value (whole ++ f) 0) (- Z.of_nat (String.length f))
  | None => Num.of_decimal false (digits_value whole 0) 0
  end.

(** Text that can follow a numeral without extending it: nothing, or text
    that starts with no digit, no exponent mark and, after a numeral without
    a point, no point. *)
Definition ends_numeral (frac : option string) (rest : string) : bool :=
  match rest with
  | EmptyString => true
  | String c _ =>
      negb (Text.is_digit c) && negb (Ascii.eqb c "e") && negb (Ascii.eqb c "E")
      && match frac with
         | Some _ => true
         | None => negb (Ascii.eqb c ".")
         end
  end.

(** [whole] and [frac] form a decimal numeral that [rest] does not extend. *)
Definition numeral (whole : string) (frac : option string) (rest : string) : bool :=
  negb (String.eqb whole EmptyString) && all_digits whole
  && match frac with
     | Some f => all_digits f
     | None => true
     end
  && ends_numeral frac rest.

(** A numeric field whose first present candidate is text that starts with a
    decimal numeral is the number of that numeral, whatever follows it. *)
Definition reads_decimal_prefix (candidates : list value) (n : Num.number) : Prop :=
  forall whole frac rest,
    first_present candidates = Some (VStr (decimal_text whole frac ++ rest)) ->
    numeral whole frac rest = true ->
    n = finite_or_zero (decimal_number whole frac).

(** The response table of section 6. *)
Definition method_not_allowed : response :=
  Response 405 (VObj [ ("error", VStr "Method not allowed") ]).

Definition invalid_signature : response :=
  Response 401 (VObj [ ("error", VStr "Invalid HMAC signature") ]).

Definition internal_error : response :=
  Response 500 (VObj [ ("error", VStr "Internal error") ]).

(** Which endpoint the reply names. *)
Definition sent_to (env : environment) : string :=
  if Text.includes (endpoint env) "/debug/" then "GA4 DEBUG" else "GA4".

Definition success (sent_to text : string) : response :=
  Response 200 (VObj [ ("status", VStr "ok");
                       ("sent_to", VStr sent_to);
                       ("ga_response", VStr text) ]).

(** The body the handler reads: the chunks in order of arrival. *)
Definition raw_body (req : request) : string :=
  String.concat EmptyString (chunks req).

(** The one call that forwards an event. *)
Definition forward (env : environment) (ev : value) : call :=
  Call (endpoint env) "POST" "application/json" (JSON.stringify ev).

(** Section 7: the failures that are not detected explicitly.  A body that
    is not JSON, a call to the collector that fails, and any other exception
    (while checking the signature or while mapping the order). *)
Inductive failure (env : environment) (net : network) (req : request) : Prop :=
| MalformedInput (e : exn) :
    method req = "POST" ->
    verifyShopifyHmac env req (raw_body req) = Ok true ->
    JSON.parse (raw_body req) = Throw e ->
    failure env net req
| UpstreamFailure (order ev : value) :
    method req = "POST" ->
    verifyShopifyHmac env req (raw_body req) = Ok true ->
    JSON.parse (raw_body req) = Ok order ->
    ga4Event order = Ok ev ->
    net (forward env ev) = None ->
    failure env net req
| UnexpectedInVerification (e : exn) :
    method req = "POST" ->
    verifyShopifyHmac env req (raw_body req) = Throw e ->
    failure env net req
| UnexpectedInMapping (order : value) (e : exn) :
    method req = "POST" ->
    verifyShopifyHmac env req (raw_body req) = Ok true ->
    JSON.parse (raw_body req) = Ok order ->
    ga4Event order = Throw e ->
    failure env net req.

(** What one invocation leaves behind, read off the response table: the one
    reply and the calls made. *)
Definition outcome (env : environment) (net : network) (req : request) : world :=
  if negb (String.eqb (method req) "POST") then World [ method_not_allowed ] []
  else
    match verifyShopifyHmac env req (raw_body req) with
    | Throw _ => World [ internal_error ] []
    | Ok false => World [ invalid_signature ] []
    | Ok true =>
        match JSON.parse (raw_body req) with
        | Throw _ => World [ internal_error ] []
        | Ok order =>
            match ga4Event order with
            | Throw _ => World [ internal_error ] []
            | Ok ev =>
                match net (forward env ev) with
                | None => World [ internal_error ] [ forward env ev ]
                | Some text => World [ success (sent_to env) text ] [ forward env ev ]
                end
            end
        end
    end.

End Spec.

(** ** Sample requests *)

Module Sample.

Import JS Webhook.

Definition signature_header : string := "x-shopify-hmac-sha256".

(** A POST request whose body arrives in one chunk, with the given signature
    header (or none). *)
Definition post (signature : option string) (body_text : string) : request :=
  Request "POST"
    (fun name => if String.eqb name signature_header then signature else None)
    [ body_text ].

Definition open_env : environment :=
  Env (Some "G-TEST") (Some "key") None None.

Definition signed_env : environment :=
  Env (Some "G-TEST") (Some "key") (Some "s3cr3t") None.

(** A collector that answers every call with an empty body. *)
Definition collector_up : network := fun _ => Some EmptyString.

(** A network on which every call fails. *)
Definition collector_down : network := fun _ => None.

(** The order of the end-to-end scenario of section 8. *)
Definition scenario_body : string :=
  Text.json_text
    "{'id': 1001, 'customer':{'id':77,'email':'a@b.com'}, 'total_price':'199.50', 'currency':'USD', 'line_items':[{'product_id':9,'title':'Widget','quantity':2,'price':'50'}], 'note_attributes':[{'name':'gclid','value':'abc123'}]}".

Definition scenario_order : value :=
  Eval vm_compute in
    match JSON.parse scenario_body with
    | Ok v => v
    | Throw _ => VUndefined
    end.

Definition scenario_event : value :=
  Eval vm_compute in
    match ga4Event scenario_order with
    | Ok v => v
    | Throw _ => VUndefined
    end.

(** The same order with a client id as its only tracking attribute. *)
Definition plain_body : string :=
  Text.json_text
    "{'id': 1001, 'customer':{'id':77}, 'total_price':'199.50', 'line_items':[{'product_id':9,'title':'Widget','price':'50'}], 'note_attributes':[{'name':'Client_ID','value':'abc'}]}".

Definition plain_order : value :=
  Eval vm_compute in
    match JSON.parse plain_body with
    | Ok v => v
    | Throw _ => VUndefined
    end.

Definition plain_event : value :=
  Eval vm_compute in
    match ga4Event plain_order with
    | Ok v => v
    | Throw _ => VUndefined
    end.

(** An order whose customer id is an empty list. *)
Definition odd_customer_body : string :=
  Text.json_text "{'id':1001,'customer':{'id':[]}}".

Definition odd_customer_order : value :=
  VObj [ ("id", VNum (Num.of_Z 1001)); ("customer", VObj [ ("id", VArr []) ]) ].

(** An order whose customer id is zero. *)
Definition zero_customer_body : string :=
  Text.json_text "{'id':1001,'customer':{'id':0}}".

Definition zero_customer_order : value :=
  VObj [ ("id", VNum (Num.of_Z 1001)); ("customer", VObj [ ("id", VNum Num.zero) ]) ].

(** Line items. *)
Definition widget : value :=
  VObj [ ("product_id", VNum (Num.of_Z 9)); ("title", VStr "Widget");
         ("quantity", VNum (Num.of_Z 2)); ("price", VStr "50") ].

Definition unpriced : value :=
  VObj [ ("product_id", VNum (Num.of_Z 9)); ("price", VStr "not-a-number") ].

Definition bare : value := VObj [ ("product_id", VNum (Num.of_Z 9)) ].

(** An order with a returned line: its quantity is negative. *)
Definition returned_body : string :=
  Text.json_text "{'id':1,'line_items':[{'product_id':9,'quantity':-3}]}".

Definition normalized (item : value) : value :=
  match line_item (VObj []) item with
  | Ok v => v
  | Throw _ => VUndefined
  end.

Definition widget_item : value := Eval vm_compute in normalized widget.
Definition unpriced_item : value := Eval vm_compute in normalized unpriced.
Definition bare_item : value := Eval vm_compute in normalized bare.

(** The signature of the scenario body under the secret of [signed_env],
    and its first twenty characters. *)
Definition good_signature : string :=
  Eval vm_compute in Crypto.hmac_sha256_base64 "s3cr3t" scenario_body.

Definition truncated_signature : string :=
  Eval vm_compute in Text.take 20 good_signature.

(** A signature of the right length that differs in its first character. *)
Definition forged_signature : string :=
  Eval vm_compute in String "B" (Text.drop 1 good_signature).

(** The text the scenario's event is forwarded as. *)
Definition scenario_payload : string :=
  Text.json_text
    "{'client_id':'77','user_id':'a@b.com','non_personalized_ads':false,'events':[{'name':'purchase','params':{'transaction_id':'1001','value':199.5,'currency':'USD','tax':0,'shipping':0,'items':[{'item_id':'9','item_name':'Widget','quantity':2,'price':50}],'gclid':'abc123'}}]}".

(** An order whose only tracking attribute is written in mixed case. *)
Definition mixed_case_order : value :=
  VObj [ ("id", VNum (Num.of_Z 5));
         ("note_attributes",
          VArr [ VObj [ ("name", VStr "UTM_Source"); ("value", VStr "newsletter") ] ]) ].

(** Bodies without an order id. *)
Definition empty_object_body : string := "{}".

Definition null_item_body : string := Text.json_text "{'line_items':[null]}".

Definition empty_object_event : value :=
  Eval vm_compute in
    match ga4Event (VObj []) with
    | Ok v => v
    | Throw _ => VUndefined
    end.

End Sample.

(** ** Further sample requests and orders *)

Module More.

Import JS Webhook.

Definition debug_env : environment :=
  Env (Some "G-TEST") (Some "key") None (Some "1").




(** A tracking attribute the lookup cannot read: [null] or [undefined], or
    an entry whose name is neither absent nor a string. *)
Definition malformed_attribute (a : value) : bool :=
  nullish a
  || match prop a "name" with
     | VUndefined | VNull | VStr _ => false
     | VBool _ | VNum _ | VArr _ | VObj _ => true
     end.

Definition attribute (name value_text : string) : value :=
  VObj [ ("name", VStr name); ("value", VStr value_text) ].

(** An order with two gclid attributes, in different case, and a null entry
    after them. *)
Definition repeated_attribute_order : value :=
  VObj [ ("id", VNum (Num.of_Z 7));
         ("note_attributes",
          VArr [ attribute "utm_source" "mail"; attribute "GCLID" "first";
                 attribute "gclid" "second"; VNull ]) ].

(** An order with a null entry as its second tracking attribute. *)
Definition null_attribute_order : value :=
  VObj [ ("id", VNum (Num.of_Z 7));
         ("note_attributes", VArr [ attribute "gclid" "abc"; VNull ]) ].

(** An order with an empty gclid and a utm_source. *)
Definition empty_gclid_order : value :=
  VObj [ ("id", VNum (Num.of_Z 7));
         ("note_attributes",
          VArr [ attribute "gclid" EmptyString; attribute "utm_source" "mail" ]) ].

Definition empty_gclid_event : value :=
  Eval vm_compute in
    match ga4Event empty_gclid_order with
    | Ok v => v
    | Throw _ => VUndefined
    end.

Definition money (amount : string) : value :=
  VObj [ ("shop_money", VObj [ ("amount", VStr amount) ]) ].

(** A line item priced in both shapes, the flat one not a number. *)
Definition twice_priced : value :=
  VObj [ ("id", VNum (Num.of_Z 4)); ("price", VStr "abc");
         ("price_set", money "9.99") ].

Definition twice_priced_item : value := Eval vm_compute in Sample.normalized twice_priced.

(** A line item with a stock-keeping unit and an id, and a name but no
    title. *)
Definition named : value :=
  VObj [ ("id", VNum (Num.of_Z 4)); ("sku", VStr "SKU-1"); ("name", VStr "Mug") ].

Definition named_item : value := Eval vm_compute in Sample.normalized named.

(** An order of two lines and two discount codes. *)
Definition two_line_order : value :=
  VObj [ ("id", VNum (Num.of_Z 8));
         ("line_items", VArr [ Sample.widget; named ]);
         ("discount_codes",
          VArr [ VObj [ ("code", VStr "SPRING") ]; VObj [ ("code", VStr "VIP") ] ]) ].

Definition two_line_event : value :=
  Eval vm_compute in
    match ga4Event two_line_order with
    | Ok v => v
    | Throw _ => VUndefined
    end.

(** Orders whose lists are not lists. *)
Definition text_lines_order : value :=
  VObj [ ("id", VNum (Num.of_Z 8)); ("line_items", VStr "none") ].

Definition text_attributes_order : value :=
  VObj [ ("id", VNum (Num.of_Z 8)); ("note_attributes", VStr "none") ].

(** The environment with every unset variable the handler reads as text
    given the text the handler reads for it. *)
Definition spelled_out (env : environment) : environment :=
  Env (Some (interpolate (env_GA4_MEASUREMENT_ID env)))
      (Some (interpolate (env_GA4_API_SECRET env)))
      (Some (SHOPIFY_WEBHOOK_SECRET env))
      (env_GA4_DEBUG_MODE env).

(** A line item whose price is an object with a key toString. *)
Definition odd_price : value :=
  VObj [ ("id", VNum (Num.of_Z 4)); ("price", VObj [ ("toString", VNum Num.one) ]) ].

(** What [||] chooses among candidates written left to right: the first
    truthy one, and the last one when none is. *)
Fixpoint or_chain (first : value) (others : list value) : value :=
  match others with
  | [] => first
  | next :: rest => if truthy first then first else or_chain next rest
  end.

End More.


(** * Properties *)

(** ** Known answers

    The platform functions on inputs whose results are known: the SHA-256
    of "abc" and test case 2 of RFC 4231, in base64; numbers that print in
    each of the layouts of Number::toString; parseFloat on prefixes; and
    JSON.parse followed by JSON.stringify. *)

Module KnownAnswers.

Import JS.

Example sha256_abc :
  Crypto.base64 (Crypto.sha256 (Text.bytes "abc"))
  = "ungWv48Bz+pBQUDeXa4iI7ADYaOWF3qctBD/YfIAFa0=".
Proof. vm_compute; reflexivity. Qed.

Example hmac_rfc4231_case2 :
  Crypto.hmac_sha256_base64 "Jefe" "what do ya want for nothing?"
  = "W9zBRr9gdU5qBCQmCJV1x1oAPwidJzmDnexYuWTsOEM=".
Proof. vm_compute; reflexivity. Qed.

Example numbers_print :
  List.map (fun d => Num.to_string (Num.of_decimal false (fst d) (snd d)))
    [ (1, -1); (1995, -1); (1, 21); (1, 20); (1, -7); (1, -6); (5, -324);
      (30000000000000004, -17); (123456789012345678901, 0); (1, 23); (1, 400) ]
  = [ "0.1"; "199.5"; "1e+21"; "100000000000000000000"; "1e-7"; "0.000001";
      "5e-324"; "0.30000000000000004"; "123456789012345680000"; "1e+23";
      "Infinity" ].
Proof. vm_compute; reflexivity. Qed.

Example parseFloat_reads_prefixes :
  List.map (fun s => Num.to_string (parseFloat_string s))
    [ "199.50"; "  12.5abc"; "+.5e-3x"; "1e"; "1.e5"; "-Infinityx"; "0x10";
      "not-a-number"; "."; "infinity"; "1e400" ]
  = [ "199.5"; "12.5"; "0.0005"; "1"; "100000"; "-Infinity"; "0";
      "NaN"; "NaN"; "NaN"; "Infinity" ].
Proof. vm_compute; reflexivity. Qed.

Example json_round_trips :
  List.map
    (fun s =>
       match JSON.parse (Text.json_text s) with
       | Ok v => JSON.stringify v
       | Throw _ => "SyntaxError"
       end)
    [ " [1, 2.50 ,'a',null,true,false,{'b':[]}] ";
      "{'a':1,'2':2,'a':3,'1':{'x':-0}}";
      "01"; "1."; "[1,]"; "{'a':1,}"; "nul"; "true false"; "" ]
  = List.map Text.json_text
      [ "[1,2.5,'a',null,true,false,{'b':[]}]";
        "{'1':{'x':0},'2':2,'a':3}";
        "SyntaxError"; "SyntaxError"; "SyntaxError"; "SyntaxError";
        "SyntaxError"; "SyntaxError"; "SyntaxError" ].
Proof. vm_compute; reflexivity. Qed.

Example String_of_values :
  List.map ToString
    [ VUndefined; VNull; VBool true; VNum (Num.of_Z 1001); VStr "x"; VArr [];
      VArr [ VNum Num.one; VNull; VArr [ VStr "a"; VUndefined ] ]; VObj [];
      VObj [ ("toString", VNum Num.one) ] ]
  = [ Ok "undefined"; Ok "null"; Ok "true"; Ok "1001"; Ok "x"; Ok EmptyString;
      Ok "1,,a,"; Ok "[object Object]"; Throw TypeError ].
Proof. vm_compute; reflexivity. Qed.

End KnownAnswers.

(** ** Text and numbers never print as nothing *)

Module TextFacts.

Lemma append_nonempty_l (a b : string) : a <> EmptyString -> a ++ b <> EmptyString.
Proof. destruct a; simpl; [congruence | discriminate]. Qed.

Lemma append_nonempty_r (a b : string) : b <> EmptyString -> a ++ b <> EmptyString.
Proof. destruct a; simpl; [auto | discriminate]. Qed.

Lemma digits_fuel_nonempty (fuel : nat) :
  forall n acc, acc <> EmptyString -> Text.digits_fuel fuel n acc <> EmptyString.
Proof.
  induction fuel as [|f IH]; intros n acc Hacc; simpl; auto.
  destruct (n <? 10); [discriminate | apply IH; discriminate].
Qed.

Lemma decimal_nonempty (n : Z) : Text.decimal n <> EmptyString.
Proof.
  unfold Text.decimal. simpl.
  destruct (n <? 10); [discriminate | apply digits_fuel_nonempty; discriminate].
Qed.

Lemma eqb_empty_false (s : string) : String.eqb s EmptyString = false -> s <> EmptyString.
Proof. intros H ->. discriminate. Qed.

End TextFacts.

Module NumFacts.

Import TextFacts.

Lemma format_nonempty (s k n : Z) : Num.format s k n <> EmptyString.
Proof.
  unfold Num.format.
  repeat match goal with
         | |- context [if ?c then _ else _] => destruct c
         end;
    first [ apply append_nonempty_l; apply decimal_nonempty
          | apply append_nonempty_r; discriminate
          | discriminate ].
Qed.

Lemma to_string_nonempty (x : Num.number) : Num.to_string x <> EmptyString.
Proof.
  destruct x as [s|s| |s m e]; unfold Num.to_string; try discriminate.
  - destruct s; discriminate.
  - match goal with
    | |- context [Num.shortest ?a ?b ?c ?d ?f ?g] =>
        destruct (Num.shortest a b c d f g) as [[d' k'] n']
    end.
    apply append_nonempty_r, format_nonempty.
Qed.

End NumFacts.

(** ** Computations that return or throw *)

Module JSFacts.

Import JS TextFacts.

Lemma bind_ok {A B : Type} (m : result A) (f : A -> result B) (b : B) :
  bind m f = Ok b -> exists a, m = Ok a /\ f a = Ok b.
Proof. destruct m as [a|e]; simpl; [eauto | discriminate]. Qed.

Lemma or_else_ok (a : value) (k : result value) (v : value) :
  or_else a k = Ok v ->
  (truthy a = true /\ v = a) \/ (truthy a = false /\ k = Ok v).
Proof.
  unfold or_else. destruct (truthy a); intros H; [left | right]; split; congruence.
Qed.

Lemma get_member_ok (v : value) (k : string) (x : value) :
  get_member v k = Ok x -> nullish v = false /\ x = prop v k.
Proof. unfold get_member. destruct (nullish v); [discriminate | split; congruence]. Qed.

Lemma get_member_present (v : value) (k : string) :
  nullish v = false -> get_member v k = Ok (prop v k).
Proof. unfold get_member. intros ->. reflexivity. Qed.

Lemma get_opt_present (v : value) (k : string) :
  nullish v = false -> get_opt v k = prop v k.
Proof. unfold get_opt. intros ->. reflexivity. Qed.

Lemma or_val_cases (a b : value) :
  (truthy a = true /\ or_val a b = a) \/ (truthy a = false /\ or_val a b = b).
Proof. unfold or_val. destruct (truthy a); auto. Qed.

Lemma map_result_ok {A B : Type} (f : A -> result B) :
  forall l l', map_result f l = Ok l' -> Forall2 (fun x y => f x = Ok y) l l'.
Proof.
  induction l as [|x r IH]; simpl; intros l' H.
  - inversion H. constructor.
  - apply bind_ok in H. destruct H as (y & Hy & H).
    apply bind_ok in H. destruct H as (ys & Hys & H).
    inversion H; subst. constructor; auto.
Qed.

(** [String(v)] is empty only for the empty string and for arrays. *)
Lemma ToString_nonempty (v : value) (s : string) :
  ToString v = Ok s -> Spec.may_print_empty v = false -> s <> EmptyString.
Proof.
  destruct v as [| |b|n|t|l|ps]; simpl; intros H Hv; try discriminate.
  - inversion H. discriminate.
  - inversion H. discriminate.
  - inversion H. destruct b; discriminate.
  - inversion H. apply NumFacts.to_string_nonempty.
  - inversion H; subst. now apply eqb_empty_false.
  - destruct (has_key "toString" ps); [discriminate | inversion H; discriminate].
Qed.

(** *** parseFloat on text that does not start like a number *)



End JSFacts.

(** ** The order-to-event mapping *)

Module MappingFacts.

Import JS Webhook JSFacts.

Lemma or_else_Ok (a b : value) : or_else a (Ok b) = Ok (or_val a b).
Proof. unfold or_else, or_val. destruct (truthy a); reflexivity. Qed.

(** Runs the steps of a computation that are known to return. *)
Ltac run_pure := repeat (progress (cbn [bind]; rewrite ?or_else_Ok)).

Lemma toNumber_finite (v : value) (fallback n : Num.number) :
  toNumber v fallback = Ok n -> Num.isFinite fallback = true -> Num.isFinite n = true.
Proof.
  unfold toNumber. intros H Hf. apply bind_ok in H. destruct H as (x & _ & H).
  inversion H; subst. destruct (Num.isFinite x) eqn:Hx; assumption.
Qed.

(** A falsy value reads as [0]. *)
Lemma toNumber_falsy (v : value) :
  truthy v = false -> toNumber v Num.zero = Ok Num.zero.
Proof.
  destruct v as [| |b|n|s|l|ps]; simpl; try discriminate; try reflexivity.
  - intros ->. reflexivity.
  - destruct n; simpl; try discriminate; reflexivity.
  - destruct s; [reflexivity | discriminate].
Qed.


Lemma line_item_eq (order item : value) :
  nullish item = false ->
  line_item order item =
    (item_id <- String_ (or_val (or_val (or_val (prop item "product_id") (prop item "sku"))
                                   (prop item "variant_id")) (prop item "id")) ;;
     price <- toNumber (or_val (or_val (prop item "price")
                                  (Spec.nested_amount item "price_set"))
                          (VNum Num.zero)) Num.zero ;;
     Ok (VObj [ ("item_id", item_id);
                ("item_name", or_val (prop item "title") (prop item "name"));
                ("quantity", or_val (prop item "quantity") (VNum Num.one));
                ("price", VNum price);
                ("item_brand",
                 or_val (get_opt (get_opt order "line_items") "vendor") VUndefined);
                ("item_variant", or_val (prop item "variant_title") VUndefined) ])).
Proof.
  intros Hitem. unfold line_item, shop_money_amount, Spec.nested_amount.
  rewrite !(get_member_present item) by assumption.
  run_pure. reflexivity.
Qed.

Lemma line_item_nullish (order item : value) :
  nullish item = true -> line_item order item = Throw TypeError.
Proof.
  intros H. unfold line_item, get_member. rewrite H. reflexivity.
Qed.

Lemma items_ok (order its : value) :
  items order = Ok its ->
  nullish order = false /\
  exists l0 l',
    or_val (prop order "line_items") (VArr []) = VArr l0 /\
    Forall2 (fun x y => line_item order x = Ok y) l0 l' /\
    its = VArr l'.
Proof.
  unfold items. intros H.
  apply bind_ok in H. destruct H as (li & Hli & H).
  apply bind_ok in Hli. destruct Hli as (x & Hx & Hli).
  apply get_member_ok in Hx. destruct Hx as [Hord ->].
  rewrite or_else_Ok in Hli. inversion Hli; subst li; clear Hli.
  apply bind_ok in H. destruct H as (mapped & Hm & H).
  split; [assumption|].
  destruct (or_val (prop order "line_items") (VArr [])) as [| | | | |l0|] eqn:Hl;
    try discriminate.
  cbn [array_map] in Hm. apply bind_ok in Hm. destruct Hm as (l' & Hl' & Hm).
  inversion Hm; subst mapped. cbn in H. inversion H; subst its.
  exists l0, l'. repeat split. now apply map_result_ok.
Qed.

Lemma params_eq (order : value) (attr : list (string * value)) (its : value) :
  nullish order = false ->
  params order attr its =
    (transaction_id <- String_ (prop order "id") ;;
     value_n <- toNumber (or_val (or_val (prop order "total_price")
                                    (prop order "current_total_price"))
                            (Spec.nested_amount order "total_price_set")) Num.zero ;;
     tax <- toNumber (or_val (prop order "total_tax") (VNum Num.zero)) Num.zero ;;
     shipping <- toNumber (or_val (Spec.nested_amount order "total_shipping_price_set")
                             (VNum Num.zero)) Num.zero ;;
     Ok (VObj ([ ("transaction_id", transaction_id);
                 ("value", VNum value_n);
                 ("currency",
                  or_val (or_val (prop order "currency") (prop order "presentment_currency"))
                    (VStr "INR"));
                 ("tax", VNum tax);
                 ("shipping", VNum shipping);
                 ("coupon",
                  or_val (get_opt (get_opt (prop order "discount_codes") "0") "code")
                    VUndefined);
                 ("items", its) ]
               ++ flat_map (fun kv => spread_if (fst kv) (snd kv)) attr)%list)).
Proof.
  intros Hord. unfold params, shop_money_amount, Spec.nested_amount.
  rewrite !(get_member_present order) by assumption.
  run_pure.
  destruct (String_ (prop order "id")); [run_pure|reflexivity].
  destruct (toNumber _ Num.zero); [run_pure|reflexivity].
  destruct (toNumber _ Num.zero); [run_pure|reflexivity].
  reflexivity.
Qed.

Lemma ga4Event_ok (order ev : value) :
  ga4Event order = Ok ev ->
  exists cid attr its cs ps,
    clientId order = Ok cid /\
    attribution order = Ok attr /\
    items order = Ok its /\
    String_ cid = Ok cs /\
    params order attr its = Ok ps /\
    ev = VObj ([ ("client_id", cs) ]
               ++ spread_if "user_id" (userId order)
               ++ [ ("non_personalized_ads", VBool false);
                    ("events", VArr [ VObj [ ("name", VStr "purchase");
                                             ("params", ps) ] ]) ])%list.
Proof.
  unfold ga4Event. intros H.
  apply bind_ok in H. destruct H as (cid & Hcid & H).
  apply bind_ok in H. destruct H as (attr & Hattr & H).
  apply bind_ok in H. destruct H as (its & Hits & H).
  apply bind_ok in H. destruct H as (cs & Hcs & H).
  apply bind_ok in H. destruct H as (ps & Hps & H).
  inversion H. exists cid, attr, its, cs, ps. repeat split; assumption.
Qed.

(** The fields of the envelope built by [ga4Event]. *)
Lemma envelope_client_id (cs uid ps : value) :
  prop (VObj ([ ("client_id", cs) ]
              ++ spread_if "user_id" uid
              ++ [ ("non_personalized_ads", VBool false);
                   ("events", VArr [ VObj [ ("name", VStr "purchase");
                                            ("params", ps) ] ]) ])%list) "client_id"
  = cs.
Proof. reflexivity. Qed.

Lemma envelope_params (cs uid ps : value) :
  Spec.event_params
    (VObj ([ ("client_id", cs) ]
           ++ spread_if "user_id" uid
           ++ [ ("non_personalized_ads", VBool false);
                ("events", VArr [ VObj [ ("name", VStr "purchase");
                                         ("params", ps) ] ]) ])%list)
  = ps.
Proof. unfold spread_if, Spec.event_params. destruct (truthy uid); reflexivity. Qed.

End MappingFacts.

(** ** parseFloat on text that starts with a decimal numeral *)

Module DecimalFacts.

Import JS Webhook.

Lemma digit_is_not (c d : ascii) :
  Text.is_digit d = true -> Text.is_digit c = false -> Ascii.eqb c d = false.
Proof.
  intros Hd Hc. destruct (Ascii.eqb_spec c d) as [->|]; [congruence|reflexivity].
Qed.

Lemma trim_start_digit (c : ascii) (r : string) :
  Text.is_digit c = true -> trim_start (String c r) = String c r.
Proof.
  unfold Text.is_digit. intros H. apply andb_true_iff in H. destruct H as [Hlo Hhi].
  apply Z.leb_le in Hlo, Hhi.
  cbn [trim_start]. cbv zeta.
  replace (Text.code c <=? 13) with false by (symmetry; apply Z.leb_gt; lia).
  replace (Text.code c =? 32) with false by (symmetry; apply Z.eqb_neq; lia).
  rewrite andb_false_r. cbn [orb].
  destruct r as [|c2 r2]; [reflexivity|].
  replace (Text.code c =? 194) with false by (symmetry; apply Z.eqb_neq; lia).
  cbn [andb].
  destruct r2 as [|c3 r3]; [reflexivity|].
  replace (Text.code c =? 225) with false by (symmetry; apply Z.eqb_neq; lia).
  replace (Text.code c =? 226) with false by (symmetry; apply Z.eqb_neq; lia).
  replace (Text.code c =? 227) with false by (symmetry; apply Z.eqb_neq; lia).
  replace (Text.code c =? 239) with false by (symmetry; apply Z.eqb_neq; lia).
  reflexivity.
Qed.

Lemma append_associates (a b c : string) : (a ++ b) ++ c = a ++ (b ++ c).
Proof. induction a as [|x a IH]; simpl; [reflexivity|now rewrite IH]. Qed.

Lemma digits_value_app (a b : string) :
  forall acc, digits_value (a ++ b) acc = digits_value b (digits_value a acc).
Proof. induction a as [|c a IH]; intros acc; simpl; [reflexivity|apply IH]. Qed.

(** Reading the digits of [w] when what follows starts with no digit. *)
Lemma take_digits_app (w rest : string) :
  all_digits w = true ->
  match rest with
  | String c _ => Text.is_digit c = false
  | EmptyString => True
  end ->
  forall acc count,
    take_digits (w ++ rest) acc count
    = (digits_value w acc, count + Z.of_nat (String.length w), rest).
Proof.
  intros Hw Hrest. induction w as [|c w IH]; intros acc count.
  - cbn [append digits_value String.length Z.of_nat]. rewrite Z.add_0_r.
    destruct rest as [|d r]; [reflexivity|]. cbn [take_digits]. now rewrite Hrest.
  - cbn [all_digits] in Hw. apply andb_true_iff in Hw. destruct Hw as [Hc Hw].
    cbn [append take_digits digits_value]. rewrite Hc, (IH Hw).
    f_equal. f_equal. cbn [String.length]. lia.
Qed.

Lemma ends_numeral_no_digit (frac : option string) (rest : string) :
  Spec.ends_numeral frac rest = true ->
  match rest with
  | String c _ => Text.is_digit c = false
  | EmptyString => True
  end.
Proof.
  destruct rest as [|c r]; [trivial|]. cbn [Spec.ends_numeral]. intros H.
  destruct (Text.is_digit c); [discriminate|reflexivity].
Qed.

Lemma ends_numeral_no_exponent (frac : option string) (rest : string) :
  Spec.ends_numeral frac rest = true -> take_exponent rest = None.
Proof.
  destruct rest as [|c r]; [reflexivity|]. cbn [Spec.ends_numeral]. intros H.
  unfold take_exponent. cbn [Text.first_is].
  rewrite (Ascii.eqb_sym "e" c), (Ascii.eqb_sym "E" c).
  destruct (Text.is_digit c); [discriminate|].
  destruct (Ascii.eqb c "e"); [discriminate|].
  destruct (Ascii.eqb c "E"); [discriminate|]. reflexivity.
Qed.

Lemma ends_numeral_no_point (rest : string) :
  Spec.ends_numeral None rest = true -> Text.first_is "." rest = false.
Proof.
  destruct rest as [|c r]; [reflexivity|]. cbn [Spec.ends_numeral Text.first_is].
  rewrite (Ascii.eqb_sym "." c). intros H.
  destruct (Ascii.eqb c "."); [|reflexivity].
  rewrite !andb_false_r in H. discriminate.
Qed.

(** [parseFloat] reads a decimal numeral at the front of a text as the number
    of that numeral, and ignores what follows. *)
Lemma parseFloat_decimal (whole : string) (frac : option string) (rest : string) :
  Spec.numeral whole frac rest = true ->
  parseFloat_string (Spec.decimal_text whole frac ++ rest)
  = Spec.decimal_number whole frac.
Proof.
  unfold Spec.numeral. intros H.
  apply andb_true_iff in H. destruct H as [H Hend].
  apply andb_true_iff in H. destruct H as [H Hfrac].
  apply andb_true_iff in H. destruct H as [Hne Hwhole].
  destruct whole as [|c w]; [discriminate|]. clear Hne.
  assert (Hc : Text.is_digit c = true).
  { cbn [all_digits] in Hwhole. now apply andb_true_iff in Hwhole. }
  assert (Hlen : (0 + Z.of_nat (String.length (String c w)) =? 0) = false).
  { apply Z.eqb_neq. cbn [String.length]. lia. }
  assert (Hshape : forall tail,
             parseFloat_string (String c w ++ tail)
             = unsigned_literal false (String c w ++ tail)).
  { intros tail. unfold parseFloat_string. cbv zeta.
    change (String c w ++ tail) with (String c (w ++ tail)).
    rewrite (trim_start_digit c _ Hc). cbn [Text.first_is].
    rewrite (digit_is_not "-" c Hc eq_refl), (digit_is_not "+" c Hc eq_refl).
    reflexivity. }
  assert (Hinf : forall tail, Text.starts_with "Infinity" (String c w ++ tail) = false).
  { intros tail. cbn [Text.starts_with append].
    now rewrite (digit_is_not "I" c Hc eq_refl). }
  destruct frac as [f|]; cbn [Spec.decimal_text Spec.decimal_number].
  - rewrite !append_associates. rewrite Hshape. unfold unsigned_literal.
    rewrite Hinf.
    rewrite (take_digits_app (String c w) ("." ++ f ++ rest) Hwhole eq_refl).
    cbn [Text.first_is append Ascii.eqb Bool.eqb Text.drop]. cbv beta iota.
    rewrite (take_digits_app f rest Hfrac (ends_numeral_no_digit _ _ Hend)).
    rewrite Hlen. cbn [andb].
    rewrite (ends_numeral_no_exponent _ _ Hend).
    change (String c (w ++ f)) with (String c w ++ f).
    now rewrite digits_value_app, Z.add_0_l.
  - rewrite Hshape. unfold unsigned_literal. rewrite Hinf.
    rewrite (take_digits_app (String c w) rest Hwhole (ends_numeral_no_digit _ _ Hend)).
    rewrite (ends_numeral_no_point _ Hend).
    rewrite Hlen. cbn [andb].
    rewrite (ends_numeral_no_exponent _ _ Hend).
    reflexivity.
Qed.


(** What [toNumber] returns, in terms of [parseFloat]. *)
Lemma numeric_field_reads (candidates : list value) (n : Num.number) :
  Spec.numeric_field candidates = Ok n -> Spec.reads_as candidates n.
Proof.
  unfold Spec.numeric_field, Spec.reads_as.
  destruct (Spec.first_present candidates) as [c|].
  - unfold toNumber. intros H. apply JSFacts.bind_ok in H.
    destruct H as (x & Hx & H). exists x. split; [assumption|].
    inversion H. reflexivity.
  - intros H. now inversion H.
Qed.

Lemma numeric_field_decimal (candidates : list value) (n : Num.number) :
  Spec.numeric_field candidates = Ok n -> Spec.reads_decimal_prefix candidates n.
Proof.
  unfold Spec.numeric_field, Spec.reads_decimal_prefix.
  intros H whole frac rest Hc Hnum. rewrite Hc in H.
  unfold toNumber, parseFloat in H. cbn [ToString bind] in H.
  rewrite (parseFloat_decimal _ _ _ Hnum) in H. now inversion H.
Qed.

End DecimalFacts.

(** ** Tracking attributes and the client identifier *)

Module AttributeFacts.

Import JS Webhook JSFacts MappingFacts.

Lemma find_first_none (p : value -> result bool) :
  forall l v,
    (forall a, In a l -> p a <> Ok true) ->
    find_first p l = Ok v -> v = VUndefined.
Proof.
  induction l as [|a r IH]; simpl; intros v Hno H.
  - congruence.
  - apply bind_ok in H. destruct H as ([|] & Hb & H).
    + exfalso. apply (Hno a); auto.
    + apply IH; auto.
Qed.

Lemma getAttr_absent (order : value) (key : string) (v : value) :
  Spec.no_attribute order key -> getAttr order key = Ok v -> v = VUndefined.
Proof.
  unfold getAttr, Spec.no_attribute, Spec.attribute_list. intros Hno H.
  apply bind_ok in H. destruct H as (a & Ha & H).
  destruct (attributes order) as [| | | | |l|]; try discriminate.
  cbn [array_find] in Ha.
  apply (find_first_none _ _ _ Hno) in Ha. subst a.
  inversion H. reflexivity.
Qed.

Lemma client_id_source_unique (order v v' : value) :
  Spec.client_id_source order v -> Spec.client_id_source order v' -> v = v'.
Proof.
  intros H H'. inversion H; inversion H'; subst; congruence.
Qed.

Lemma String_ok (v cs : value) :
  String_ v = Ok cs -> exists s, ToString v = Ok s /\ cs = VStr s.
Proof.
  unfold String_. intros H. apply bind_ok in H. destruct H as (s & Hs & H).
  inversion H. eauto.
Qed.

Lemma clientId_ok (order cid cs : value) :
  clientId order = Ok cid ->
  String_ cid = Ok cs ->
  exists v s, Spec.client_id_source order v /\ ToString v = Ok s /\ cs = VStr s.
Proof.
  unfold clientId. intros H Hcs.
  apply bind_ok in H. destruct H as (x & Hx & H).
  apply bind_ok in Hx. destruct Hx as (a & Ha & Hx).
  apply or_else_ok in Hx. apply or_else_ok in H.
  apply String_ok in Hcs. destruct Hcs as (s & Hs & ->).
  destruct Hx as [[Hta ->] | [Hfa Hb]].
  - (* the client_id attribute *)
    destruct H as [[_ ->] | [Hfx _]]; [|congruence].
    exists a, s. repeat split; auto. now apply Spec.from_client_id.
  - destruct H as [[Htx ->] | [Hfx H]].
    + (* the _ga_cid attribute *)
      exists x, s. repeat split; auto. now apply Spec.from_ga_cid with a.
    + apply bind_ok in H. destruct H as (cust & Hcust & H).
      apply get_member_ok in Hcust. destruct Hcust as [Hord ->].
      destruct (truthy (get_opt (prop order "customer") "id")) eqn:Hid.
      * (* the customer id *)
        rewrite (get_member_present order) in H by assumption. cbn [bind] in H.
        apply bind_ok in H. destruct H as (id & Hget & H).
        apply get_member_ok in Hget. destruct Hget as [Hc ->].
        rewrite (get_opt_present _ _ Hc) in Hid.
        apply String_ok in H. destruct H as (t & Ht & ->).
        cbn in Hs. inversion Hs; subst t.
        exists (get_opt (prop order "customer") "id"), s.
        rewrite (get_opt_present _ _ Hc). repeat split; auto.
        rewrite <- (get_opt_present _ _ Hc).
        apply Spec.from_customer_id with a x; auto.
        now rewrite (get_opt_present _ _ Hc).
      * (* the order id *)
        apply bind_ok in H. destruct H as (id & Hget & H).
        apply get_member_ok in Hget. destruct Hget as [_ ->].
        apply String_ok in H. destruct H as (t & Ht & ->).
        cbn in Hs. inversion Hs; subst t.
        exists (prop order "id"), s. repeat split; auto.
        now apply Spec.from_order_id with a x.
Qed.

Lemma Forall2_right {A B : Type} (R : A -> B -> Prop) (P : B -> Prop) :
  forall l l', Forall2 R l l' ->
               (forall x y, In x l -> R x y -> P y) -> Forall P l'.
Proof.
  induction 1 as [|x y l l' Hxy _ IH]; intros HP; constructor.
  - apply (HP x y); simpl; auto.
  - apply IH. intros x' y' Hin. apply HP. simpl; auto.
Qed.

(** Without attribution attributes nothing is spread into [params]. *)
Lemma attribution_absent (order : value) (attr : list (string * value)) :
  (forall k, In k attribution_keys -> Spec.no_attribute order k) ->
  attribution order = Ok attr ->
  flat_map (fun kv => spread_if (fst kv) (snd kv)) attr = [].
Proof.
  unfold attribution. intros Hno H.
  apply map_result_ok in H.
  assert (Hall : Forall (fun kv => spread_if (fst kv) (snd kv) = []) attr).
  { apply (Forall2_right _ _ _ _ H). intros k kv Hk Hkv.
    apply bind_ok in Hkv. destruct Hkv as (v & Hv & Hkv).
    apply bind_ok in Hv. destruct Hv as (a & Ha & Hv).
    apply (getAttr_absent _ _ _ (Hno k Hk)) in Ha. subst a.
    cbn in Hv. inversion Hv; subst v. inversion Hkv. reflexivity. }
  clear H. induction Hall as [|kv r Hkv _ IH]; simpl; [reflexivity|].
  now rewrite Hkv, IH.
Qed.

End AttributeFacts.

(** ** Line items *)

Import JS Webhook.




(** A price that is text with no numeric prefix, on a concrete item. *)
Example unpriced_is_zero :
  line_item (VObj []) Sample.unpriced = Ok Sample.unpriced_item
  /\ Spec.has_numeric_prefix "not-a-number" = false
  /\ prop Sample.unpriced_item "price" = VNum Num.zero
  /\ prop Sample.unpriced_item "quantity" = VNum Num.one.
Proof. repeat split; vm_compute; reflexivity. Qed.

(** What parseFloat makes of a price that starts like a number is that
    number: the text after it is ignored. *)
Example price_prefix_is_read :
  toNumber (VStr "12abc") Num.zero = Ok (Num.of_Z 12)
  /\ toNumber (VStr "1,234.50") Num.zero = Ok (Num.of_Z 1)
  /\ toNumber (VStr "Infinity") Num.zero = Ok Num.zero.
Proof. repeat split; vm_compute; reflexivity. Qed.

(** A price missing from both shapes, on a concrete item. *)
Example missing_price_is_zero :
  line_item (VObj []) Sample.bare = Ok Sample.bare_item
  /\ prop Sample.bare_item "price" = VNum Num.zero.
Proof. split; vm_compute; reflexivity. Qed.

(** C5, as the code has it. The normalized quantity is the source quantity
    when that is truthy and 1 otherwise; so it is an integer greater than or
    equal to 1 whenever the source quantity is falsy or is itself such an
    integer. *)
Theorem C5_quantity_passes_through (order item it : value) :
  line_item order item = Ok it ->
  prop it "quantity" = or_val (prop item "quantity") (VNum Num.one)
  /\ (truthy (prop item "quantity") = false
      \/ (exists q, prop item "quantity" = VNum q /\ Num.is_integer_ge1 q = true) ->
      exists n, prop it "quantity" = VNum n /\ Num.is_integer_ge1 n = true).
Proof.
  intros H.
  destruct (nullish item) eqn:Hitem.
  { rewrite (MappingFacts.line_item_nullish _ _ Hitem) in H. discriminate. }
  rewrite (MappingFacts.line_item_eq _ _ Hitem) in H.
  apply JSFacts.bind_ok in H. destruct H as (item_id & _ & H).
  apply JSFacts.bind_ok in H. destruct H as (price & _ & H).
  inversion H; subst it; clear H. cbn [prop lookup String.eqb Ascii.eqb Bool.eqb].
  split; [reflexivity|].
  intros [Hq | (q & Hq & Hint)].
  - exists Num.one. unfold or_val. rewrite Hq. split; reflexivity.
  - exists q. rewrite Hq. split; [|assumption].
    unfold or_val. cbn [truthy].
    destruct q as [| | |[|] m e]; try discriminate. reflexivity.
Qed.

Lemma C5_quantity_passes_through_witness :
  line_item (VObj []) Sample.widget = Ok Sample.widget_item
  /\ prop Sample.widget_item "quantity" = VNum (Num.of_Z 2)
  /\ exists n, prop Sample.widget_item "quantity" = VNum n
               /\ Num.is_integer_ge1 n = true.
Proof.
  split; [vm_compute; reflexivity|].
  destruct (C5_quantity_passes_through (VObj []) Sample.widget Sample.widget_item)
    as (Heq & Hint); [vm_compute; reflexivity|].
  split; [exact Heq|].
  apply Hint. right. exists (Num.of_Z 2). split; reflexivity.
Defined.

(** C5 as stated fails: a returned line with quantity -3 keeps -3, which is
    what the forwarded event carries. *)
Lemma C5_counterexample_negative_quantity :
  exists order ev,
    JSON.parse Sample.returned_body = Ok order
    /\ ga4Event order = Ok ev
    /\ prop (prop (prop (Spec.event_params ev) "items") "0") "quantity"
       = VNum (Num.of_Z (-3))
    /\ Num.is_integer_ge1 (Num.of_Z (-3)) = false.
Proof.
  eexists. eexists.
  split; [vm_compute; reflexivity|].
  split; [vm_compute; reflexivity|].
  split; vm_compute; reflexivity.
Qed.

(** ** The purchase event *)

(** C3, as the code has it. The client identifier is the string form of the
    first of these that is truthy: the value of the client_id attribute, the
    value of the _ga_cid attribute, the customer id; and of the order id when
    none is. Exactly one source is chosen. The identifier is non-empty unless
    the chosen value is the empty string or an array. *)
Theorem C3_client_id_resolution (order ev : value) :
  ga4Event order = Ok ev ->
  exists v s,
    Spec.client_id_source order v
    /\ (forall v', Spec.client_id_source order v' -> v' = v)
    /\ ToString v = Ok s
    /\ prop ev "client_id" = VStr s
    /\ (Spec.may_print_empty v = false -> s <> EmptyString).
Proof.
  intros H. apply MappingFacts.ga4Event_ok in H.
  destruct H as (cid & attr & its & cs & ps & Hcid & _ & _ & Hcs & _ & ->).
  destruct (AttributeFacts.clientId_ok _ _ _ Hcid Hcs) as (v & s & Hsrc & Hs & ->).
  exists v, s.
  split; [assumption|].
  split; [intros v' Hv'; apply (AttributeFacts.client_id_source_unique order); assumption|].
  split; [assumption|].
  split; [apply MappingFacts.envelope_client_id|].
  now apply JSFacts.ToString_nonempty.
Qed.

Lemma C3_client_id_resolution_witness :
  ga4Event Sample.scenario_order = Ok Sample.scenario_event
  /\ exists v s,
       Spec.client_id_source Sample.scenario_order v
       /\ (forall v', Spec.client_id_source Sample.scenario_order v' -> v' = v)
       /\ ToString v = Ok s
       /\ prop Sample.scenario_event "client_id" = VStr s
       /\ (Spec.may_print_empty v = false -> s <> EmptyString).
Proof.
  split; [vm_compute; reflexivity|].
  apply C3_client_id_resolution. vm_compute; reflexivity.
Defined.

(** The three resolutions of property P3. *)
Example client_id_attribute_wins :
  prop Sample.plain_event "client_id" = VStr "abc"
  /\ prop Sample.scenario_event "client_id" = VStr "77"
  /\ prop Sample.empty_object_event "client_id" = VStr "undefined".
Proof. repeat split. Qed.

(** C3 as stated fails: an order with an id whose customer id is an empty
    list gets the empty client identifier; and a customer id that is present
    but falsy, such as 0, is passed over for the order id. *)
Lemma C3_counterexample_empty_client_id :
  JSON.parse Sample.odd_customer_body = Ok Sample.odd_customer_order
  /\ prop Sample.odd_customer_order "id" = VNum (Num.of_Z 1001)
  /\ (exists ev, ga4Event Sample.odd_customer_order = Ok ev
                 /\ prop ev "client_id" = VStr EmptyString)
  /\ JSON.parse Sample.zero_customer_body = Ok Sample.zero_customer_order
  /\ (exists ev, ga4Event Sample.zero_customer_order = Ok ev
                 /\ prop ev "client_id" = VStr "1001").
Proof.
  split; [vm_compute; reflexivity|].
  split; [reflexivity|].
  split; [eexists; split; vm_compute; reflexivity|].
  split; [vm_compute; reflexivity|].
  eexists. split; vm_compute; reflexivity.
Qed.

(** C6. For every order none of whose tracking attributes is named gclid,
    gbraid, wbraid, utm_source, utm_medium, utm_campaign, utm_content or
    utm_term, the params object of the event has exactly its seven fixed
    keys: none of the attribution keys is there, with a null value or any
    other. *)
Theorem C6_attribution_keys_omitted (order ev : value) :
  (forall k, In k attribution_keys -> Spec.no_attribute order k) ->
  ga4Event order = Ok ev ->
  exists ps,
    Spec.event_params ev = VObj ps
    /\ List.map fst ps
       = [ "transaction_id"; "value"; "currency"; "tax"; "shipping"; "coupon"; "items" ]
    /\ (forall k, In k attribution_keys -> lookup k ps = None).
Proof.
  intros Hno H. apply MappingFacts.ga4Event_ok in H.
  destruct H as (cid & attr & its & cs & ps & _ & Hattr & Hits & _ & Hps & ->).
  apply MappingFacts.items_ok in Hits. destruct Hits as (Hord & _).
  rewrite (MappingFacts.params_eq _ _ _ Hord) in Hps.
  rewrite (AttributeFacts.attribution_absent _ _ Hno Hattr) in Hps.
  apply JSFacts.bind_ok in Hps. destruct Hps as (tid & _ & Hps).
  apply JSFacts.bind_ok in Hps. destruct Hps as (v & _ & Hps).
  apply JSFacts.bind_ok in Hps. destruct Hps as (t & _ & Hps).
  apply JSFacts.bind_ok in Hps. destruct Hps as (sh & _ & Hps).
  inversion Hps; subst ps; clear Hps.
  eexists. split; [apply MappingFacts.envelope_params|].
  split; [reflexivity|].
  intros k Hk. simpl in Hk.
  repeat (destruct Hk as [<-|Hk]; [reflexivity|]). contradiction.
Qed.

Lemma C6_attribution_keys_omitted_witness :
  (forall k, In k attribution_keys -> Spec.no_attribute Sample.plain_order k)
  /\ ga4Event Sample.plain_order = Ok Sample.plain_event
  /\ exists ps,
       Spec.event_params Sample.plain_event = VObj ps
       /\ List.map fst ps
          = [ "transaction_id"; "value"; "currency"; "tax"; "shipping"; "coupon"; "items" ]
       /\ (forall k, In k attribution_keys -> lookup k ps = None).
Proof.
  assert (Hno : forall k, In k attribution_keys -> Spec.no_attribute Sample.plain_order k).
  { intros k Hk a Ha. simpl in Ha. destruct Ha as [<-|[]].
    simpl in Hk.
    repeat (destruct Hk as [<-|Hk]; [vm_compute; discriminate|]). contradiction. }
  split; [exact Hno|].
  split; [vm_compute; reflexivity|].
  apply (C6_attribution_keys_omitted Sample.plain_order);
    [exact Hno | vm_compute; reflexivity].
Defined.

(** The other direction on the scenario order: its gclid attribute is
    forwarded; and the text forwarded for the order without one does not
    contain the word. *)
Example gclid_is_forwarded :
  prop (Spec.event_params Sample.scenario_event) "gclid" = VStr "abc123"
  /\ Text.includes (JSON.stringify Sample.plain_event) "gclid" = false.
Proof. split; vm_compute; reflexivity. Qed.

(** Property P7: the attribute name UTM_Source answers the key utm_source. *)
Example attribute_names_ignore_case :
  getAttr Sample.mixed_case_order "utm_source" = Ok (VStr "newsletter")
  /\ exists ev, ga4Event Sample.mixed_case_order = Ok ev
                /\ prop (Spec.event_params ev) "utm_source" = VStr "newsletter".
Proof. split; [|eexists; split]; vm_compute; reflexivity. Qed.

(** The end-to-end scenario of section 8: the text of the forwarded event. *)
Example scenario_is_forwarded_as_specified :
  JSON.parse Sample.scenario_body = Ok Sample.scenario_order
  /\ ga4Event Sample.scenario_order = Ok Sample.scenario_event
  /\ JSON.stringify Sample.scenario_event = Sample.scenario_payload.
Proof. repeat split; vm_compute; reflexivity. Qed.

Lemma numeric_field_three (a b c : value) :
  toNumber (or_val (or_val a b) c) Num.zero = Spec.numeric_field [a; b; c].
Proof.
  unfold Spec.numeric_field, Spec.first_present, or_val.
  destruct (truthy a) eqn:Ha; cbv iota; rewrite ?Ha; [reflexivity|].
  destruct (truthy b) eqn:Hb; cbv iota; rewrite ?Hb; [reflexivity|].
  destruct (truthy c) eqn:Hc; cbv iota; rewrite ?Hc; [reflexivity|].
  now apply MappingFacts.toNumber_falsy.
Qed.

Lemma numeric_field_one (a : value) :
  toNumber (or_val a (VNum Num.zero)) Num.zero = Spec.numeric_field [a].
Proof.
  unfold Spec.numeric_field, Spec.first_present, or_val.
  destruct (truthy a); [reflexivity|].
  now apply MappingFacts.toNumber_falsy.
Qed.

Lemma currency_chain (order : value) :
  or_val (or_val (prop order "currency") (prop order "presentment_currency")) (VStr "INR")
  = Spec.currency order.
Proof.
  unfold Spec.currency, Spec.first_present, or_val.
  destruct (truthy (prop order "currency")) eqn:Hc; cbv iota; rewrite ?Hc; [reflexivity|].
  destruct (truthy (prop order "presentment_currency")) eqn:Hp; cbv iota; rewrite ?Hp;
    reflexivity.
Qed.

(** C7. For every order that is mapped, the event's totals are those of the
    specification: value from total_price, else current_total_price, else
    the nested shop-money amount of total_price_set, else 0; tax from
    total_tax, else 0; shipping from the nested shop-money amount of
    total_shipping_price_set alone, else 0; currency from currency, else
    presentment_currency, else "INR". A source is passed over when it is
    falsy. Each amount is the number parseFloat reads from its source,
    replaced by 0 when that is not finite; when the source is text that
    starts with a decimal numeral, as the amounts of an order are, the
    amount is the number of that numeral. The three amounts are finite. *)
Theorem C7_monetary_totals (order ev : value) :
  ga4Event order = Ok ev ->
  exists v t s,
    Spec.total_value order = Ok v
    /\ Spec.tax order = Ok t
    /\ Spec.shipping order = Ok s
    /\ prop (Spec.event_params ev) "value" = VNum v
    /\ prop (Spec.event_params ev) "tax" = VNum t
    /\ prop (Spec.event_params ev) "shipping" = VNum s
    /\ prop (Spec.event_params ev) "currency" = Spec.currency order
    /\ Num.isFinite v && Num.isFinite t && Num.isFinite s = true
    /\ Spec.reads_as [ prop order "total_price"; prop order "current_total_price";
                       Spec.nested_amount order "total_price_set" ] v
    /\ Spec.reads_as [ prop order "total_tax" ] t
    /\ Spec.reads_as [ Spec.nested_amount order "total_shipping_price_set" ] s
    /\ Spec.reads_decimal_prefix
         [ prop order "total_price"; prop order "current_total_price";
           Spec.nested_amount order "total_price_set" ] v
    /\ Spec.reads_decimal_prefix [ prop order "total_tax" ] t
    /\ Spec.reads_decimal_prefix
         [ Spec.nested_amount order "total_shipping_price_set" ] s.
Proof.
  intros H. apply MappingFacts.ga4Event_ok in H.
  destruct H as (cid & attr & its & cs & ps & _ & _ & Hits & _ & Hps & ->).
  apply MappingFacts.items_ok in Hits. destruct Hits as (Hord & _).
  rewrite (MappingFacts.params_eq _ _ _ Hord) in Hps.
  apply JSFacts.bind_ok in Hps. destruct Hps as (tid & _ & Hps).
  apply JSFacts.bind_ok in Hps. destruct Hps as (v & Hv & Hps).
  apply JSFacts.bind_ok in Hps. destruct Hps as (t & Ht & Hps).
  apply JSFacts.bind_ok in Hps. destruct Hps as (s & Hs & Hps).
  inversion Hps; subst ps; clear Hps.
  rewrite MappingFacts.envelope_params.
  exists v, t, s.
  rewrite (MappingFacts.toNumber_finite _ _ _ Hv eq_refl),
          (MappingFacts.toNumber_finite _ _ _ Ht eq_refl),
          (MappingFacts.toNumber_finite _ _ _ Hs eq_refl).
  rewrite numeric_field_three in Hv. rewrite numeric_field_one in Ht, Hs.
  split; [exact Hv|]. split; [exact Ht|]. split; [exact Hs|].
  split; [reflexivity|]. split; [reflexivity|]. split; [reflexivity|].
  split; [apply currency_chain|]. split; [reflexivity|].
  split; [now apply DecimalFacts.numeric_field_reads|].
  split; [now apply DecimalFacts.numeric_field_reads|].
  split; [now apply DecimalFacts.numeric_field_reads|].
  split; [now apply DecimalFacts.numeric_field_decimal|].
  split; now apply DecimalFacts.numeric_field_decimal.
Qed.

Lemma C7_monetary_totals_witness :
  ga4Event Sample.scenario_order = Ok Sample.scenario_event
  /\ prop Sample.scenario_order "total_price"
     = VStr (Spec.decimal_text "199" (Some "50"))
  /\ prop (Spec.event_params Sample.scenario_event) "value"
     = VNum (Spec.decimal_number "199" (Some "50"))
  /\ exists v t s,
       Spec.total_value Sample.scenario_order = Ok v
       /\ Spec.tax Sample.scenario_order = Ok t
       /\ Spec.shipping Sample.scenario_order = Ok s
       /\ prop (Spec.event_params Sample.scenario_event) "value" = VNum v
       /\ prop (Spec.event_params Sample.scenario_event) "tax" = VNum t
       /\ prop (Spec.event_params Sample.scenario_event) "shipping" = VNum s
       /\ prop (Spec.event_params Sample.scenario_event) "currency"
          = Spec.currency Sample.scenario_order
       /\ Num.isFinite v && Num.isFinite t && Num.isFinite s = true
       /\ Spec.reads_as
            [ prop Sample.scenario_order "total_price";
              prop Sample.scenario_order "current_total_price";
              Spec.nested_amount Sample.scenario_order "total_price_set" ] v
       /\ Spec.reads_as [ prop Sample.scenario_order "total_tax" ] t
       /\ Spec.reads_as
            [ Spec.nested_amount Sample.scenario_order "total_shipping_price_set" ] s
       /\ Spec.reads_decimal_prefix
            [ prop Sample.scenario_order "total_price";
              prop Sample.scenario_order "current_total_price";
              Spec.nested_amount Sample.scenario_order "total_price_set" ] v
       /\ Spec.reads_decimal_prefix [ prop Sample.scenario_order "total_tax" ] t
       /\ Spec.reads_decimal_prefix
            [ Spec.nested_amount Sample.scenario_order "total_shipping_price_set" ] s.
Proof.
  split; [vm_compute; reflexivity|].
  split; [reflexivity|]. split; [vm_compute; reflexivity|].
  apply C7_monetary_totals. vm_compute; reflexivity.
Defined.

(** Amounts that are numbers, not text, are kept as they are. *)
Example number_amounts_are_kept :
  toNumber (VNum (Num.of_decimal false 1995 (-1))) Num.zero
  = Ok (Num.of_decimal false 1995 (-1))
  /\ toNumber (VNum (Num.of_Z 1250)) Num.zero = Ok (Num.of_Z 1250)
  /\ toNumber (VNum (Num.of_decimal true 5 (-2))) Num.zero
     = Ok (Num.of_decimal true 5 (-2)).
Proof. repeat split; vm_compute; reflexivity. Qed.

(** Property P6 and the scenario's total: no currency gives "INR", and
    "199.50" is read as 199.5. *)
Example currency_defaults_to_INR :
  prop (Spec.event_params Sample.plain_event) "currency" = VStr "INR"
  /\ prop (Spec.event_params Sample.scenario_event) "currency" = VStr "USD"
  /\ prop (Spec.event_params Sample.scenario_event) "value"
     = VNum (Num.of_decimal false 1995 (-1)).
Proof. repeat split. Qed.

(** C8. For every order, every normalized line item has its item_brand
    undefined: the vendor is read from the line-items list, and a list has
    no such property. The items are those of the event when one is built. *)
Theorem C8_item_brand_absent (order its : value) :
  items order = Ok its ->
  exists l,
    its = VArr l
    /\ Forall (fun it => prop it "item_brand" = VUndefined) l
    /\ (forall ev, ga4Event order = Ok ev ->
                   prop (Spec.event_params ev) "items" = VArr l).
Proof.
  intros Hits.
  destruct (MappingFacts.items_ok _ _ Hits) as (Hord & l0 & l' & Hl0 & Hmap & ->).
  exists l'. split; [reflexivity|]. split.
  - assert (Hbrand : or_val (get_opt (get_opt order "line_items") "vendor") VUndefined
                     = VUndefined).
    { rewrite (JSFacts.get_opt_present order) by assumption.
      destruct (JSFacts.or_val_cases (prop order "line_items") (VArr []))
        as [[_ Hx] | [_ Hx]]; rewrite Hx in Hl0.
      - rewrite Hl0. reflexivity.
      - destruct (prop order "line_items"); try reflexivity; discriminate. }
    apply (AttributeFacts.Forall2_right _ _ _ _ Hmap).
    intros item it _ Hitem.
    destruct (nullish item) eqn:Hn.
    { rewrite (MappingFacts.line_item_nullish _ _ Hn) in Hitem. discriminate. }
    rewrite (MappingFacts.line_item_eq _ _ Hn) in Hitem.
    apply JSFacts.bind_ok in Hitem. destruct Hitem as (item_id & _ & Hitem).
    apply JSFacts.bind_ok in Hitem. destruct Hitem as (price & _ & Hitem).
    inversion Hitem. rewrite Hbrand. reflexivity.
  - intros ev Hev. apply MappingFacts.ga4Event_ok in Hev.
    destruct Hev as (cid & attr & its' & cs & ps & _ & _ & Hits' & _ & Hps & ->).
    rewrite Hits in Hits'. inversion Hits'; subst its'; clear Hits'.
    rewrite (MappingFacts.params_eq _ _ _ Hord) in Hps.
    apply JSFacts.bind_ok in Hps. destruct Hps as (tid & _ & Hps).
    apply JSFacts.bind_ok in Hps. destruct Hps as (v & _ & Hps).
    apply JSFacts.bind_ok in Hps. destruct Hps as (t & _ & Hps).
    apply JSFacts.bind_ok in Hps. destruct Hps as (s & _ & Hps).
    inversion Hps; subst ps; clear Hps.
    rewrite MappingFacts.envelope_params. reflexivity.
Qed.

Lemma C8_item_brand_absent_witness :
  items Sample.scenario_order
  = Ok (prop (Spec.event_params Sample.scenario_event) "items")
  /\ exists l,
       prop (Spec.event_params Sample.scenario_event) "items" = VArr l
       /\ Forall (fun it => prop it "item_brand" = VUndefined) l
       /\ (forall ev, ga4Event Sample.scenario_order = Ok ev ->
                      prop (Spec.event_params ev) "items" = VArr l).
Proof.
  split; [vm_compute; reflexivity|].
  apply (C8_item_brand_absent Sample.scenario_order). vm_compute; reflexivity.
Defined.

(** The scenario's one item, as forwarded. *)
Example scenario_item :
  prop (Spec.event_params Sample.scenario_event) "items"
  = VArr [ VObj [ ("item_id", VStr "9"); ("item_name", VStr "Widget");
                  ("quantity", VNum (Num.of_Z 2)); ("price", VNum (Num.of_Z 50));
                  ("item_brand", VUndefined); ("item_variant", VUndefined) ] ].
Proof. vm_compute; reflexivity. Qed.

(** ** The handler *)

Module HandlerFacts.

Import JSFacts.

(** One invocation, whatever the request, ends normally and leaves the
    outcome of the response table. *)
Lemma handler_outcome (env : environment) (net : network) (req : request) :
  handler env net req start = (Ok tt, Spec.outcome env net req).
Proof.
  unfold handler, try_catch, handler_try, Spec.outcome, Spec.raw_body, Spec.forward,
    bindM, lift, respond, fetch_text.
  destruct (negb (String.eqb (method req) "POST")); [reflexivity|].
  destruct (verifyShopifyHmac env req _) as [[|]|e]; try reflexivity.
  destruct (JSON.parse _) as [order|e]; [|reflexivity].
  destruct (ga4Event order) as [ev|e]; [|reflexivity].
  cbn [sent calls start app].
  destruct (net _) as [text|]; reflexivity.
Qed.

(** Whatever is forwarded is the event of the parsed order of an
    authenticated POST; in particular nothing is forwarded for a request
    that is not authenticated. *)
Lemma forwarded_event (env : environment) (net : network) (req : request) (c : call) :
  In c (calls (snd (handler env net req start))) ->
  exists order ev,
    method req = "POST"
    /\ verifyShopifyHmac env req (Spec.raw_body req) = Ok true
    /\ JSON.parse (Spec.raw_body req) = Ok order
    /\ ga4Event order = Ok ev
    /\ c = Spec.forward env ev.
Proof.
  rewrite handler_outcome. unfold Spec.outcome.
  destruct (String.eqb (method req) "POST") eqn:Hm; cbn [negb snd]; [|intros []].
  apply String.eqb_eq in Hm.
  destruct (verifyShopifyHmac env req _) as [[|]|e]; try (intros []).
  destruct (JSON.parse _) as [order|e]; [|intros []].
  destruct (ga4Event order) as [ev|e] eqn:Hev; [|intros []].
  destruct (net _) as [text|]; intros [<-|[]]; exists order, ev; auto.
Qed.

Lemma sha256_length (msg : list Z) : List.length (Crypto.sha256 msg) = 32%nat.
Proof. reflexivity. Qed.

(** A base64 HMAC-SHA256 digest is 44 characters long. *)
Lemma digest_length (key msg : string) :
  String.length (Crypto.hmac_sha256_base64 key msg) = 44%nat.
Proof.
  unfold Crypto.hmac_sha256_base64, Crypto.hmac_sha256.
  unfold Crypto.sha256 at 1. cbn [flat_map Crypto.be_bytes app].
  reflexivity.
Qed.

Lemma verify_without_secret (env : environment) (req : request) (rawBody : string) :
  SHOPIFY_WEBHOOK_SECRET env = EmptyString ->
  verifyShopifyHmac env req rawBody = Ok true.
Proof. unfold verifyShopifyHmac. intros ->. reflexivity. Qed.

Lemma verify_missing_header (env : environment) (req : request) (rawBody : string) :
  SHOPIFY_WEBHOOK_SECRET env <> EmptyString ->
  headers req "x-shopify-hmac-sha256" = None
  \/ headers req "x-shopify-hmac-sha256" = Some EmptyString ->
  verifyShopifyHmac env req rawBody = Ok false.
Proof.
  unfold verifyShopifyHmac. intros Hs Hh.
  destruct (String.eqb (SHOPIFY_WEBHOOK_SECRET env) EmptyString) eqn:He.
  - apply String.eqb_eq in He. contradiction.
  - destruct Hh as [-> | ->]; reflexivity.
Qed.

Lemma verify_present_header (env : environment) (req : request) (rawBody h : string) :
  SHOPIFY_WEBHOOK_SECRET env <> EmptyString ->
  headers req "x-shopify-hmac-sha256" = Some h ->
  h <> EmptyString ->
  verifyShopifyHmac env req rawBody
  = timingSafeEqual h (Crypto.hmac_sha256_base64 (SHOPIFY_WEBHOOK_SECRET env) rawBody).
Proof.
  unfold verifyShopifyHmac. intros Hs -> Hh.
  destruct (String.eqb (SHOPIFY_WEBHOOK_SECRET env) EmptyString) eqn:He.
  - apply String.eqb_eq in He. contradiction.
  - destruct (String.eqb h EmptyString) eqn:Hhe; [|reflexivity].
    apply String.eqb_eq in Hhe. contradiction.
Qed.

End HandlerFacts.

(** With a secret configured, a request without a signature header, or with
    an empty one, is answered 401 and nothing is forwarded. *)
Lemma missing_signature_is_rejected (env : environment) (net : network) (req : request) :
  method req = "POST" ->
  SHOPIFY_WEBHOOK_SECRET env <> EmptyString ->
  headers req "x-shopify-hmac-sha256" = None
  \/ headers req "x-shopify-hmac-sha256" = Some EmptyString ->
  handler env net req start = (Ok tt, World [ Spec.invalid_signature ] []).
Proof.
  intros Hm Hs Hh. rewrite HandlerFacts.handler_outcome. unfold Spec.outcome.
  rewrite Hm, (HandlerFacts.verify_missing_header env req _ Hs Hh). reflexivity.
Qed.

(** So is a request whose signature has the length of the right one and
    differs from it. *)
Lemma forged_signature_is_rejected
  (env : environment) (net : network) (req : request) (h : string) :
  method req = "POST" ->
  SHOPIFY_WEBHOOK_SECRET env <> EmptyString ->
  headers req "x-shopify-hmac-sha256" = Some h ->
  String.length h = 44%nat ->
  h <> Crypto.hmac_sha256_base64 (SHOPIFY_WEBHOOK_SECRET env) (Spec.raw_body req) ->
  handler env net req start = (Ok tt, World [ Spec.invalid_signature ] []).
Proof.
  intros Hm Hs Hh Hlen Hne. rewrite HandlerFacts.handler_outcome. unfold Spec.outcome.
  rewrite Hm, (HandlerFacts.verify_present_header env req _ h Hs Hh).
  2:{ intros ->. discriminate. }
  unfold timingSafeEqual. rewrite Hlen, HandlerFacts.digest_length. cbn [Nat.eqb].
  destruct (String.eqb h _) eqn:He; [|reflexivity].
  apply String.eqb_eq in He. contradiction.
Qed.

(** A signature of any other length makes the comparison throw: the
    request is answered 500, and nothing is forwarded. *)
Lemma signature_of_wrong_length_is_internal_error
  (env : environment) (net : network) (req : request) (h : string) :
  method req = "POST" ->
  SHOPIFY_WEBHOOK_SECRET env <> EmptyString ->
  headers req "x-shopify-hmac-sha256" = Some h ->
  h <> EmptyString ->
  String.length h <> 44%nat ->
  verifyShopifyHmac env req (Spec.raw_body req) = Throw RangeError
  /\ handler env net req start = (Ok tt, World [ Spec.internal_error ] []).
Proof.
  intros Hm Hs Hh Hne Hlen.
  assert (Hv : verifyShopifyHmac env req (Spec.raw_body req) = Throw RangeError).
  { rewrite (HandlerFacts.verify_present_header env req _ h Hs Hh Hne).
    unfold timingSafeEqual. rewrite HandlerFacts.digest_length.
    destruct (Nat.eqb (String.length h) 44) eqn:He; [|reflexivity].
    apply Nat.eqb_eq in He. contradiction. }
  split; [exact Hv|].
  rewrite HandlerFacts.handler_outcome. unfold Spec.outcome.
  rewrite Hm, Hv. reflexivity.
Qed.

(** C1 at a failing input. The secret is configured and the signature header
    holds the first twenty characters of the right signature of the body:
    the comparison throws, the reply is 500 with the internal-error body and
    not 401, and no call is made. *)
Theorem C1_truncated_signature_answers_500 :
  Sample.truncated_signature
  = Text.take 20 (Crypto.hmac_sha256_base64 "s3cr3t" Sample.scenario_body)
  /\ verifyShopifyHmac Sample.signed_env
       (Sample.post (Some Sample.truncated_signature) Sample.scenario_body)
       Sample.scenario_body
     = Throw RangeError
  /\ handler Sample.signed_env Sample.collector_up
       (Sample.post (Some Sample.truncated_signature) Sample.scenario_body) start
     = (Ok tt, World [ Spec.internal_error ] []).
Proof. repeat split; vm_compute; reflexivity. Qed.

(** The rejected scenario of section 8, and a forged signature of the right
    length: both are answered 401 without a call; the right signature is
    accepted. *)
Example signature_scenarios :
  handler Sample.signed_env Sample.collector_up
    (Sample.post None Sample.scenario_body) start
  = (Ok tt, World [ Spec.invalid_signature ] [])
  /\ handler Sample.signed_env Sample.collector_up
       (Sample.post (Some Sample.forged_signature) Sample.scenario_body) start
     = (Ok tt, World [ Spec.invalid_signature ] [])
  /\ handler Sample.signed_env Sample.collector_up
       (Sample.post (Some Sample.good_signature) Sample.scenario_body) start
     = (Ok tt, World [ Spec.success "GA4" EmptyString ]
                     [ Spec.forward Sample.signed_env Sample.scenario_event ]).
Proof. repeat split; vm_compute; reflexivity. Qed.

(** C2. If the shared secret is unset or empty, verification succeeds for
    every body and every signature header, present or not, and the handler
    never answers 401. *)
Theorem C2_verification_bypass
  (env : environment) (net : network) (req : request) (rawBody : string) :
  SHOPIFY_WEBHOOK_SECRET env = EmptyString ->
  verifyShopifyHmac env req rawBody = Ok true
  /\ forall r, In r (sent (snd (handler env net req start))) -> status r <> 401.
Proof.
  intros Hs. split; [now apply HandlerFacts.verify_without_secret|].
  rewrite HandlerFacts.handler_outcome. unfold Spec.outcome.
  rewrite (HandlerFacts.verify_without_secret env req _ Hs).
  intros r.
  destruct (negb (String.eqb (method req) "POST"));
    [intros [<-|[]]; discriminate|].
  destruct (JSON.parse _) as [order|e]; [|intros [<-|[]]; discriminate].
  destruct (ga4Event order) as [ev|e]; [|intros [<-|[]]; discriminate].
  destruct (net _) as [text|]; intros [<-|[]]; discriminate.
Qed.

Lemma C2_verification_bypass_witness :
  SHOPIFY_WEBHOOK_SECRET Sample.open_env = EmptyString
  /\ verifyShopifyHmac Sample.open_env
       (Sample.post (Some "bogus") Sample.scenario_body) "anything"
     = Ok true
  /\ forall r,
       In r (sent (snd (handler Sample.open_env Sample.collector_up
                          (Sample.post (Some "bogus") Sample.scenario_body) start))) ->
       status r <> 401.
Proof.
  split; [reflexivity|].
  apply C2_verification_bypass. reflexivity.
Defined.

(** C9. Every invocation ends without an exception and has sent exactly one
    reply, whose status is 405, 401, 200 or 500; and whenever the body does
    not parse, the call to the collector fails, or anything else throws, that
    reply is 500 with the fixed body of the internal error. *)
Theorem C9_one_reply_never_an_exception
  (env : environment) (net : network) (req : request) :
  exists r cs,
    handler env net req start = (Ok tt, World [ r ] cs)
    /\ In (status r) [ 405; 401; 200; 500 ]
    /\ (Spec.failure env net req -> r = Spec.internal_error).
Proof.
  rewrite HandlerFacts.handler_outcome. unfold Spec.outcome.
  destruct (String.eqb (method req) "POST") eqn:Hm; cbn [negb].
  2:{ eexists. eexists. split; [reflexivity|]. split; [simpl; auto|].
      intros [e Hp|order ev Hp|e Hp|order e Hp]; rewrite Hp in Hm; discriminate. }
  destruct (verifyShopifyHmac env req _) as [[|]|e] eqn:Hv.
  - destruct (JSON.parse _) as [order|e] eqn:Hp.
    + destruct (ga4Event order) as [ev|e] eqn:Hev.
      * destruct (net _) as [text|] eqn:Hnet.
        -- eexists. eexists. split; [reflexivity|]. split; [simpl; auto|].
           intros [e _ _ Hp'|order' ev' _ _ Hp' Hev' Hnet'|e _ Hv'|order' e _ _ Hp' Hev'];
             congruence.
        -- eexists. eexists. split; [reflexivity|]. split; [simpl; auto|]. reflexivity.
      * eexists. eexists. split; [reflexivity|]. split; [simpl; auto|]. reflexivity.
    + eexists. eexists. split; [reflexivity|]. split; [simpl; auto|]. reflexivity.
  - eexists. eexists. split; [reflexivity|]. split; [simpl; auto|].
    intros [e _ Hv' _|order ev _ Hv' _ _ _|e _ Hv'|order e _ Hv' _ _]; congruence.
  - eexists. eexists. split; [reflexivity|]. split; [simpl; auto|]. reflexivity.
Qed.

Lemma C9_one_reply_never_an_exception_witness :
  Spec.failure Sample.open_env Sample.collector_down
    (Sample.post None Sample.scenario_body)
  /\ exists r cs,
       handler Sample.open_env Sample.collector_down
         (Sample.post None Sample.scenario_body) start
       = (Ok tt, World [ r ] cs)
       /\ In (status r) [ 405; 401; 200; 500 ]
       /\ r = Spec.internal_error.
Proof.
  assert (Hf : Spec.failure Sample.open_env Sample.collector_down
                 (Sample.post None Sample.scenario_body)).
  { apply (Spec.UpstreamFailure _ _ _ Sample.scenario_order Sample.scenario_event);
      vm_compute; reflexivity. }
  split; [exact Hf|].
  destruct (C9_one_reply_never_an_exception Sample.open_env Sample.collector_down
              (Sample.post None Sample.scenario_body)) as (r & cs & Hr & Hs & Hfail).
  exists r, cs. repeat split; auto.
Defined.

(** Each kind of failure on a concrete request: a body that is not JSON, a
    collector that cannot be reached, an order that makes the mapping throw. *)
Example failures_answer_500 :
  handler Sample.open_env Sample.collector_up (Sample.post None "{not json") start
  = (Ok tt, World [ Spec.internal_error ] [])
  /\ handler Sample.open_env Sample.collector_down
       (Sample.post None Sample.scenario_body) start
     = (Ok tt, World [ Spec.internal_error ]
                     [ Spec.forward Sample.open_env Sample.scenario_event ])
  /\ handler Sample.open_env Sample.collector_up (Sample.post None "null") start
     = (Ok tt, World [ Spec.internal_error ] []).
Proof. repeat split; vm_compute; reflexivity. Qed.

(** Another method is answered 405, and the scenario of section 8 is
    answered 200 after one call. *)
Example method_and_success :
  handler Sample.open_env Sample.collector_up
    (Request "GET" (fun _ => None) []) start
  = (Ok tt, World [ Spec.method_not_allowed ] [])
  /\ handler Sample.open_env Sample.collector_up
       (Sample.post None Sample.scenario_body) start
     = (Ok tt, World [ Spec.success "GA4" EmptyString ]
                     [ Spec.forward Sample.open_env Sample.scenario_event ]).
Proof. repeat split; vm_compute; reflexivity. Qed.

(** C10, as the code has it. For every authenticated POST whose body parses
    to an object with no id field, no customer and no client_id or _ga_cid
    attribute: if mapping the order raises no exception, the event has
    "undefined" as its client_id and as its transaction_id; and if the call
    to the collector completes, that event is what is forwarded and the reply
    is 200. The order id is never validated. *)
Theorem C10_missing_order_id_is_forwarded
  (env : environment) (net : network) (req : request)
  (fields : list (string * value)) (ev : value) (text : string) :
  method req = "POST" ->
  verifyShopifyHmac env req (Spec.raw_body req) = Ok true ->
  JSON.parse (Spec.raw_body req) = Ok (VObj fields) ->
  lookup "id" fields = None ->
  lookup "customer" fields = None ->
  Spec.no_attribute (VObj fields) "client_id" ->
  Spec.no_attribute (VObj fields) "_ga_cid" ->
  ga4Event (VObj fields) = Ok ev ->
  net (Spec.forward env ev) = Some text ->
  handler env net req start
  = (Ok tt, World [ Spec.success (Spec.sent_to env) text ] [ Spec.forward env ev ])
  /\ prop ev "client_id" = VStr "undefined"
  /\ prop (Spec.event_params ev) "transaction_id" = VStr "undefined".
Proof.
  intros Hm Hv Hp Hid Hcust Hc Hg Hev Hnet.
  split.
  { rewrite HandlerFacts.handler_outcome. unfold Spec.outcome.
    rewrite Hm, Hv, Hp, Hev, Hnet. reflexivity. }
  apply MappingFacts.ga4Event_ok in Hev.
  destruct Hev as (cid & attr & its & cs & ps & Hcid & _ & _ & Hcs & Hps & ->).
  rewrite MappingFacts.envelope_client_id, MappingFacts.envelope_params.
  split.
  - destruct (AttributeFacts.clientId_ok _ _ _ Hcid Hcs) as (v & s & Hsrc & Hs & ->).
    assert (Hno : get_opt (prop (VObj fields) "customer") "id" = VUndefined).
    { cbn [prop]. rewrite Hcust. reflexivity. }
    inversion Hsrc as [v0 Ha Ht|a v0 Ha Hf Hb Ht|a b Ha Hfa Hb Hfb Ht|a b Ha Hfa Hb Hfb Hf];
      subst.
    + apply (AttributeFacts.getAttr_absent _ _ _ Hc) in Ha. subst v. discriminate.
    + apply (AttributeFacts.getAttr_absent _ _ _ Hg) in Hb. subst v. discriminate.
    + rewrite Hno in Ht. discriminate.
    + cbn [prop] in Hs. rewrite Hid in Hs. cbn in Hs. congruence.
  - rewrite (MappingFacts.params_eq (VObj fields) attr its eq_refl) in Hps.
    apply JSFacts.bind_ok in Hps. destruct Hps as (tid & Htid & Hps).
    apply JSFacts.bind_ok in Hps. destruct Hps as (v & _ & Hps).
    apply JSFacts.bind_ok in Hps. destruct Hps as (t & _ & Hps).
    apply JSFacts.bind_ok in Hps. destruct Hps as (s & _ & Hps).
    inversion Hps; subst ps; clear Hps.
    cbn [prop] in Htid. rewrite Hid in Htid. cbn in Htid. inversion Htid.
    reflexivity.
Qed.

Lemma C10_missing_order_id_is_forwarded_witness :
  JSON.parse (Spec.raw_body (Sample.post None Sample.empty_object_body)) = Ok (VObj [])
  /\ ga4Event (VObj []) = Ok Sample.empty_object_event
  /\ handler Sample.open_env Sample.collector_up
       (Sample.post None Sample.empty_object_body) start
     = (Ok tt, World [ Spec.success (Spec.sent_to Sample.open_env) EmptyString ]
                     [ Spec.forward Sample.open_env Sample.empty_object_event ])
  /\ prop Sample.empty_object_event "client_id" = VStr "undefined"
  /\ prop (Spec.event_params Sample.empty_object_event) "transaction_id"
     = VStr "undefined".
Proof.
  split; [vm_compute; reflexivity|].
  split; [vm_compute; reflexivity|].
  apply (C10_missing_order_id_is_forwarded
           Sample.open_env Sample.collector_up
           (Sample.post None Sample.empty_object_body) []);
    try (vm_compute; reflexivity).
  - intros a [].
  - intros a [].
Defined.

(** C10 as stated fails: a body without an order id whose line items hold a
    null is authenticated and parsed, and is then answered 500 with nothing
    forwarded, although the collector is up; and the empty object, whose
    event is built, is answered 500 when the collector cannot be reached. *)
Lemma C10_counterexample_null_line_item :
  verifyShopifyHmac Sample.open_env (Sample.post None Sample.null_item_body)
    Sample.null_item_body
  = Ok true
  /\ JSON.parse Sample.null_item_body = Ok (VObj [ ("line_items", VArr [ VNull ]) ])
  /\ handler Sample.open_env Sample.collector_up
       (Sample.post None Sample.null_item_body) start
     = (Ok tt, World [ Spec.internal_error ] [])
  /\ JSON.parse Sample.empty_object_body = Ok (VObj [])
  /\ handler Sample.open_env Sample.collector_down
       (Sample.post None Sample.empty_object_body) start
     = (Ok tt, World [ Spec.internal_error ]
                     [ Spec.forward Sample.open_env Sample.empty_object_event ]).
Proof. repeat split; vm_compute; reflexivity. Qed.

(** * Further properties of the handler *)

Module VerdictFacts.

Lemma timingSafeEqual_true (a b : string) :
  timingSafeEqual a b = Ok true <-> a = b.
Proof.
  unfold timingSafeEqual. split.
  - destruct (Nat.eqb _ _); [|discriminate].
    intros H. inversion H as [He]. now apply String.eqb_eq.
  - intros ->. rewrite Nat.eqb_refl, String.eqb_refl. reflexivity.
Qed.

Lemma timingSafeEqual_false (a b : string) :
  timingSafeEqual a b = Ok false <-> String.length a = String.length b /\ a <> b.
Proof.
  unfold timingSafeEqual. split.
  - destruct (Nat.eqb _ _) eqn:Hl; [|discriminate].
    intros H. inversion H as [He]. split.
    + now apply Nat.eqb_eq.
    + intros ->. rewrite String.eqb_refl in He. discriminate.
  - intros [Hl Hne]. rewrite Hl, Nat.eqb_refl.
    destruct (String.eqb a b) eqn:He; [|reflexivity].
    apply String.eqb_eq in He. contradiction.
Qed.

Lemma timingSafeEqual_throws (a b : string) (e : exn) :
  timingSafeEqual a b = Throw e <-> e = RangeError /\ String.length a <> String.length b.
Proof.
  unfold timingSafeEqual. split.
  - destruct (Nat.eqb _ _) eqn:Hl; [discriminate|].
    intros H. inversion H. split; [reflexivity|]. now apply Nat.eqb_neq.
  - intros [-> Hl]. apply Nat.eqb_neq in Hl. now rewrite Hl.
Qed.

Lemma digest_nonempty (key msg : string) :
  Crypto.hmac_sha256_base64 key msg <> EmptyString.
Proof.
  intros H. pose proof (HandlerFacts.digest_length key msg) as Hl.
  rewrite H in Hl. discriminate.
Qed.

End VerdictFacts.

(** X1. Every call the handler makes is the forwarding of an event: the
    request was a POST, its signature was accepted, its body parsed, the
    order was mapped, and the call is a POST of the serialized event as
    application/json to the endpoint. It is the only call of the
    invocation. *)
Theorem calls_are_authenticated
  (env : environment) (net : network) (req : request) (c : call) :
  In c (calls (snd (handler env net req start))) ->
  exists order ev,
    method req = "POST"
    /\ verifyShopifyHmac env req (Spec.raw_body req) = Ok true
    /\ JSON.parse (Spec.raw_body req) = Ok order
    /\ ga4Event order = Ok ev
    /\ c = Call (endpoint env) "POST" "application/json" (JSON.stringify ev)
    /\ calls (snd (handler env net req start)) = [ c ].
Proof.
  rewrite HandlerFacts.handler_outcome. unfold Spec.outcome.
  destruct (String.eqb (method req) "POST") eqn:Hm; cbn [negb snd]; [|intros []].
  apply String.eqb_eq in Hm.
  destruct (verifyShopifyHmac env req _) as [[|]|e]; try (intros []).
  destruct (JSON.parse _) as [order|e]; [|intros []].
  destruct (ga4Event order) as [ev|e] eqn:Hev; [|intros []].
  destruct (net _) as [text|]; intros [<-|[]]; exists order, ev; auto 10.
Qed.

Lemma calls_are_authenticated_witness :
  In (Spec.forward Sample.open_env Sample.scenario_event)
    (calls (snd (handler Sample.open_env Sample.collector_up
                   (Sample.post None Sample.scenario_body) start)))
  /\ exists order ev,
       method (Sample.post None Sample.scenario_body) = "POST"
       /\ verifyShopifyHmac Sample.open_env (Sample.post None Sample.scenario_body)
            (Spec.raw_body (Sample.post None Sample.scenario_body))
          = Ok true
       /\ JSON.parse (Spec.raw_body (Sample.post None Sample.scenario_body)) = Ok order
       /\ ga4Event order = Ok ev
       /\ Spec.forward Sample.open_env Sample.scenario_event
          = Call (endpoint Sample.open_env) "POST" "application/json" (JSON.stringify ev)
       /\ calls (snd (handler Sample.open_env Sample.collector_up
                        (Sample.post None Sample.scenario_body) start))
          = [ Spec.forward Sample.open_env Sample.scenario_event ].
Proof.
  assert (Hin : In (Spec.forward Sample.open_env Sample.scenario_event)
                  (calls (snd (handler Sample.open_env Sample.collector_up
                                 (Sample.post None Sample.scenario_body) start)))).
  { vm_compute. left. reflexivity. }
  split; [exact Hin|].
  exact (calls_are_authenticated _ _ _ _ Hin).
Defined.

(** X2. With a secret configured, verifyShopifyHmac has three verdicts. It
    accepts exactly when the signature header is the base64 HMAC-SHA256 of
    the body under the secret. It rejects exactly when the header is absent,
    empty, or 44 bytes long and different from that digest. It throws a
    RangeError exactly when the header is non-empty and not 44 bytes long. *)
Theorem verification_verdicts
  (env : environment) (req : request) (rawBody : string) :
  SHOPIFY_WEBHOOK_SECRET env <> EmptyString ->
  let digest := Crypto.hmac_sha256_base64 (SHOPIFY_WEBHOOK_SECRET env) rawBody in
  let header := headers req "x-shopify-hmac-sha256" in
  (verifyShopifyHmac env req rawBody = Ok true <-> header = Some digest)
  /\ (verifyShopifyHmac env req rawBody = Ok false <->
      header = None \/ header = Some EmptyString
      \/ exists h, header = Some h /\ String.length h = 44%nat /\ h <> digest)
  /\ (forall e, verifyShopifyHmac env req rawBody = Throw e <->
      e = RangeError
      /\ exists h, header = Some h /\ h <> EmptyString /\ String.length h <> 44%nat).
Proof.
  intros Hs digest header.
  destruct header as [h|] eqn:Hh; unfold header in Hh.
  2:{ rewrite (HandlerFacts.verify_missing_header env req rawBody Hs (or_introl Hh)).
      split; [|split].
      - split; discriminate.
      - split; auto.
      - intros e. split; [discriminate|].
        intros [_ (h & Hx & _)]. discriminate. }
  destruct (String.eqb h EmptyString) eqn:He.
  { apply String.eqb_eq in He. subst h.
    rewrite (HandlerFacts.verify_missing_header env req rawBody Hs (or_intror Hh)).
    split; [|split].
    - split; [discriminate|].
      intros H. exfalso. apply (VerdictFacts.digest_nonempty (SHOPIFY_WEBHOOK_SECRET env) rawBody).
      fold digest. congruence.
    - split; auto.
    - intros e. split; [discriminate|].
      intros [_ (h & Hx & Hne & _)]. inversion Hx. subst h. contradiction. }
  assert (Hne : h <> EmptyString) by (intros ->; discriminate).
  rewrite (HandlerFacts.verify_present_header env req rawBody h Hs Hh Hne).
  fold digest. split; [|split].
  - rewrite VerdictFacts.timingSafeEqual_true. split; [intros ->; reflexivity|].
    intros H. now inversion H.
  - rewrite VerdictFacts.timingSafeEqual_false. unfold digest at 1.
    rewrite HandlerFacts.digest_length. fold digest. split.
    + intros [Hl Hd]. right. right. exists h. auto.
    + intros [H|[H|(h' & H & Hl & Hd)]]; try discriminate.
      * inversion H. subst h. contradiction.
      * inversion H. subst h'. auto.
  - intros e. rewrite VerdictFacts.timingSafeEqual_throws. unfold digest.
    rewrite HandlerFacts.digest_length. split.
    + intros [-> Hl]. split; [reflexivity|]. exists h. auto.
    + intros [-> (h' & H & _ & Hl)]. inversion H. subst h'. auto.
Qed.

Lemma verification_verdicts_witness :
  SHOPIFY_WEBHOOK_SECRET Sample.signed_env <> EmptyString
  /\ verifyShopifyHmac Sample.signed_env
       (Sample.post (Some Sample.good_signature) Sample.scenario_body)
       Sample.scenario_body
     = Ok true.
Proof.
  assert (Hs : SHOPIFY_WEBHOOK_SECRET Sample.signed_env <> EmptyString)
    by (vm_compute; discriminate).
  split; [exact Hs|].
  apply (proj1 (verification_verdicts Sample.signed_env
                  (Sample.post (Some Sample.good_signature) Sample.scenario_body)
                  Sample.scenario_body Hs)).
  vm_compute. reflexivity.
Defined.

(** X3. The reply of every invocation, by status. It is 405 exactly when the
    method is not POST, whatever the headers and the body; 401 exactly when
    a POST is rejected by the signature check, whether or not its body is
    JSON; 200 exactly when a POST was accepted, parsed, mapped and the
    collector answered, the reply then carrying the collector's text as it
    is; and 500 exactly on the failures of section 7. *)
Theorem reply_by_status (env : environment) (net : network) (req : request) :
  exists r cs,
    handler env net req start = (Ok tt, World [ r ] cs)
    /\ (status r = 405 <-> method req <> "POST")
    /\ (status r = 401 <->
        method req = "POST"
        /\ verifyShopifyHmac env req (Spec.raw_body req) = Ok false)
    /\ (status r = 200 <->
        exists order ev text,
          method req = "POST"
          /\ verifyShopifyHmac env req (Spec.raw_body req) = Ok true
          /\ JSON.parse (Spec.raw_body req) = Ok order
          /\ ga4Event order = Ok ev
          /\ net (Spec.forward env ev) = Some text
          /\ r = Spec.success (Spec.sent_to env) text
          /\ cs = [ Spec.forward env ev ])
    /\ (status r = 500 <-> Spec.failure env net req).
Proof.
  rewrite HandlerFacts.handler_outcome. unfold Spec.outcome.
  destruct (String.eqb (method req) "POST") eqn:Hm; cbn [negb].
  2:{ apply String.eqb_neq in Hm.
      eexists. eexists. split; [reflexivity|]. cbn [status Spec.method_not_allowed].
      split; [split; auto|].
      split; [split; [discriminate|intros [H _]; contradiction]|].
      split; [split; [discriminate|intros (o & ev & t & H & _); contradiction]|].
      split; [discriminate|].
      intros [e Hp|order ev Hp|e Hp|order e Hp]; contradiction. }
  apply String.eqb_eq in Hm.
  assert (Hpost : ~ method req <> "POST") by (intros H; contradiction).
  destruct (verifyShopifyHmac env req _) as [[|]|e] eqn:Hv.
  - destruct (JSON.parse _) as [order|e] eqn:Hp.
    + destruct (ga4Event order) as [ev|e] eqn:Hev.
      * destruct (net _) as [text|] eqn:Hnet.
        -- eexists. eexists. split; [reflexivity|]. cbn [status Spec.success].
           split; [split; [discriminate|intros H; contradiction]|].
           split; [split; [discriminate|intros [_ H]; discriminate]|].
           split.
           ++ split; [|reflexivity]. intros _. exists order, ev, text. auto 10.
           ++ split; [discriminate|].
              intros [e _ _ Hp'|order' ev' _ _ Hp' Hev' Hnet'|e _ Hv'|order' e _ _ Hp' Hev'];
                congruence.
        -- eexists. eexists. split; [reflexivity|]. cbn [status Spec.internal_error].
           split; [split; [discriminate|intros H; contradiction]|].
           split; [split; [discriminate|intros [_ H]; discriminate]|].
           split.
           ++ split; [discriminate|].
              intros (o & ev' & t & _ & _ & Ho & He' & Hn & _). congruence.
           ++ split; [|reflexivity]. intros _.
              now apply (Spec.UpstreamFailure env net req order ev).
      * eexists. eexists. split; [reflexivity|]. cbn [status Spec.internal_error].
        split; [split; [discriminate|intros H; contradiction]|].
        split; [split; [discriminate|intros [_ H]; discriminate]|].
        split.
        -- split; [discriminate|].
           intros (o & ev' & t & _ & _ & Ho & He' & _). congruence.
        -- split; [|reflexivity]. intros _.
           now apply (Spec.UnexpectedInMapping env net req order e).
    + eexists. eexists. split; [reflexivity|]. cbn [status Spec.internal_error].
      split; [split; [discriminate|intros H; contradiction]|].
      split; [split; [discriminate|intros [_ H]; discriminate]|].
      split.
      * split; [discriminate|].
        intros (o & ev' & t & _ & _ & Ho & _). congruence.
      * split; [|reflexivity]. intros _.
        now apply (Spec.MalformedInput env net req e).
  - eexists. eexists. split; [reflexivity|]. cbn [status Spec.invalid_signature].
    split; [split; [discriminate|intros H; contradiction]|].
    split; [split; auto|].
    split.
    + split; [discriminate|].
      intros (o & ev' & t & _ & H & _). discriminate.
    + split; [discriminate|].
      intros [e _ Hv' _|order ev _ Hv' _ _ _|e _ Hv'|order e _ Hv' _ _]; congruence.
  - eexists. eexists. split; [reflexivity|]. cbn [status Spec.internal_error].
    split; [split; [discriminate|intros H; contradiction]|].
    split; [split; [discriminate|intros [_ H]; discriminate]|].
    split.
    + split; [discriminate|].
      intros (o & ev' & t & _ & H & _). discriminate.
    + split; [|reflexivity]. intros _.
      now apply (Spec.UnexpectedInVerification env net req e).
Qed.

Lemma includes_debug (rest : string) :
  Text.includes
    ("https://www.google-analytics.com/debug/mp/collect?measurement_id=" ++ rest)
    "/debug/" = true.
Proof. reflexivity. Qed.

(** X5. The debug endpoint is selected exactly when GA4_DEBUG_MODE is the
    string 1: unset, or any other value, selects the live endpoint. In debug
    mode the reply names GA4 DEBUG, whatever the measurement id and the API
    secret are. *)
Theorem debug_endpoint_selection (env : environment) :
  (endpoint env = GA4_DEBUG env <-> env_GA4_DEBUG_MODE env = Some "1")
  /\ (endpoint env = GA4_ENDPOINT env <-> env_GA4_DEBUG_MODE env <> Some "1")
  /\ (env_GA4_DEBUG_MODE env = Some "1" -> Spec.sent_to env = "GA4 DEBUG").
Proof.
  assert (Hdiff : GA4_ENDPOINT env <> GA4_DEBUG env).
  { unfold GA4_ENDPOINT, GA4_DEBUG. intros H.
    apply (f_equal (String.get 33)) in H. cbn in H. discriminate. }
  unfold Spec.sent_to, endpoint.
  destruct (env_GA4_DEBUG_MODE env) as [mode|].
  - destruct (String.eqb mode "1") eqn:Hmode.
    + apply String.eqb_eq in Hmode. subst mode.
      split; [split; auto|].
      split; [split; [intros H; symmetry in H; contradiction|intros H; contradiction]|].
      intros _. unfold GA4_DEBUG. now rewrite includes_debug.
    + apply String.eqb_neq in Hmode.
      split; [split; [intros H; contradiction|intros H; inversion H; contradiction]|].
      split; [split; [intros _ H; inversion H; contradiction|reflexivity]|].
      intros H. inversion H. contradiction.
  - split; [split; [intros H; contradiction|discriminate]|].
    split; [split; [discriminate|reflexivity]|].
    discriminate.
Qed.

(** * Further properties of the mapping *)

Module LookupFacts.

Import JSFacts.

Ltac thrown := eexists; reflexivity.

Lemma find_first_hit (p : value -> result bool) (a : value) (post : list value) :
  forall pre,
    (forall b, In b pre -> p b = Ok false) ->
    p a = Ok true ->
    find_first p (pre ++ a :: post) = Ok a.
Proof.
  induction pre as [|b pre IH]; intros Hpre Ha; simpl.
  - now rewrite Ha.
  - rewrite (Hpre b) by (simpl; auto). cbn [bind]. apply IH; auto.
    intros b' Hb'. apply Hpre. simpl; auto.
Qed.

Lemma find_first_throws (p : value -> result bool) (bad : value) (post : list value)
  (e : exn) :
  forall pre,
    (forall b, In b pre -> p b <> Ok true) ->
    p bad = Throw e ->
    exists e', find_first p (pre ++ bad :: post) = Throw e'.
Proof.
  induction pre as [|b pre IH]; intros Hpre Hbad; simpl.
  - rewrite Hbad. exists e. reflexivity.
  - destruct (p b) as [[|]|e'] eqn:Hb; cbn [bind].
    + exfalso. apply (Hpre b); simpl; auto.
    + apply IH; auto. intros b' Hb'. apply Hpre. simpl; auto.
    + thrown.
Qed.

Lemma map_result_throws {A B : Type} (f : A -> result B) (k : A) :
  forall l, In k l -> (exists e, f k = Throw e) -> exists e, map_result f l = Throw e.
Proof.
  induction l as [|x r IH]; intros Hin Hk; [contradiction|].
  simpl. destruct (f x) as [y|e] eqn:Hx; cbn [bind]; [|thrown].
  destruct Hin as [->|Hin].
  - destruct Hk as (e & He). congruence.
  - destruct (IH Hin Hk) as (e & He). rewrite He. thrown.
Qed.

Lemma name_is_malformed (key : string) (a : value) :
  More.malformed_attribute a = true -> name_is key a = Throw TypeError.
Proof.
  unfold More.malformed_attribute, name_is, get_member.
  destruct (nullish a); [reflexivity|]. cbn [orb bind].
  destruct (prop a "name"); try discriminate; reflexivity.
Qed.

Lemma name_is_true_present (key : string) (a : value) :
  name_is key a = Ok true -> nullish a = false.
Proof.
  unfold name_is, get_member. destruct (nullish a); [discriminate|reflexivity].
Qed.

Lemma lookup_absent (k : string) :
  forall ps, ~ In k (List.map fst ps) -> lookup k ps = None.
Proof.
  induction ps as [|[k' v] r IH]; simpl; intros Hk; [reflexivity|].
  destruct (String.eqb k k') eqn:He.
  - apply String.eqb_eq in He. exfalso. auto.
  - apply IH. auto.
Qed.

Lemma spread_keys (k : string) :
  forall attr,
    In k (List.map fst (flat_map (fun kv => spread_if (fst kv) (snd kv)) attr)) ->
    In k (List.map fst attr).
Proof.
  induction attr as [|[k' v] r IH]; simpl; [auto|].
  unfold spread_if at 1. cbn [fst snd]. destruct (truthy v); simpl; intuition.
Qed.

(** Looking a key up among the conditional spreads. *)
Lemma lookup_spread (k : string) (w : value) :
  forall attr,
    NoDup (List.map fst attr) ->
    In (k, w) attr ->
    lookup k (flat_map (fun kv => spread_if (fst kv) (snd kv)) attr)
    = if truthy w then Some w else None.
Proof.
  induction attr as [|[k' v] r IH]; intros Hnd Hin; [contradiction|].
  simpl in Hnd. inversion Hnd as [|? ? Hnotin Hnd']; subst.
  cbn [flat_map fst snd]. unfold spread_if at 1.
  destruct Hin as [Heq|Hin].
  - inversion Heq; subst k' v.
    destruct (truthy w).
    + cbn [app lookup]. now rewrite String.eqb_refl.
    + cbn [app]. apply lookup_absent. intros H. apply Hnotin. now apply spread_keys.
  - assert (Hne : String.eqb k k' = false).
    { apply String.eqb_neq. intros ->. apply Hnotin.
      change k' with (fst (k', w)). now apply in_map. }
    destruct (truthy v); cbn [app lookup]; rewrite ?Hne; now apply IH.
Qed.

Lemma attribution_ok (order : value) (attr : list (string * value)) :
  attribution order = Ok attr ->
  List.map fst attr = attribution_keys
  /\ forall k, In k attribution_keys ->
               exists v, getAttr order k = Ok v /\ In (k, or_val v VNull) attr.
Proof.
  unfold attribution. intros H. apply map_result_ok in H.
  induction H as [|k kv ks attr' Hk _ IH].
  - split; [reflexivity|]. intros k [].
  - destruct IH as [Hkeys Hall].
    apply bind_ok in Hk. destruct Hk as (w & Hw & Hk).
    apply bind_ok in Hw. destruct Hw as (v & Hv & Hw).
    rewrite MappingFacts.or_else_Ok in Hw. inversion Hw; subst w. inversion Hk; subst kv.
    split; [simpl; now rewrite Hkeys|].
    intros k' [<-|Hin].
    + exists v. split; [assumption|]. simpl; auto.
    + destruct (Hall k' Hin) as (v' & Hv' & Hin'). exists v'. simpl; auto.
Qed.

End LookupFacts.

(** X6. The first matching attribute wins. If the tracking attributes hold
    an entry named key (in any case) and no entry before it is, getAttr
    returns the value of that entry; the entries after it, repeated names and
    unreadable entries included, are never looked at. *)
Theorem first_attribute_wins (order : value) (key : string)
  (pre : list value) (a : value) (post : list value) :
  attributes order = VArr (pre ++ a :: post) ->
  (forall b, In b pre -> name_is key b = Ok false) ->
  name_is key a = Ok true ->
  getAttr order key = Ok (prop a "value").
Proof.
  intros Hattr Hpre Ha. unfold getAttr. rewrite Hattr. cbn [array_find].
  rewrite (LookupFacts.find_first_hit _ _ _ _ Hpre Ha). cbn [bind].
  now rewrite (JSFacts.get_opt_present _ _ (LookupFacts.name_is_true_present _ _ Ha)).
Qed.

Lemma first_attribute_wins_witness :
  attributes More.repeated_attribute_order
  = VArr ([ More.attribute "utm_source" "mail" ]
          ++ More.attribute "GCLID" "first"
             :: [ More.attribute "gclid" "second"; VNull ])
  /\ getAttr More.repeated_attribute_order "gclid" = Ok (VStr "first").
Proof.
  split; [reflexivity|].
  apply (first_attribute_wins More.repeated_attribute_order "gclid"
           [ More.attribute "utm_source" "mail" ] (More.attribute "GCLID" "first")
           [ More.attribute "gclid" "second"; VNull ]).
  - reflexivity.
  - intros b [<-|[]]. reflexivity.
  - reflexivity.
Defined.

(** X7. One unreadable tracking attribute fails the whole order. If the
    attributes hold an entry that is null, or whose name is neither absent
    nor a string, and for client_id or one of the attribution keys no entry
    before it has that name, the mapping throws; the handler then answers
    500 and forwards nothing. *)
Theorem unreadable_attribute_fails (order : value) (key : string)
  (pre : list value) (bad : value) (post : list value) :
  attributes order = VArr (pre ++ bad :: post) ->
  More.malformed_attribute bad = true ->
  In key ("client_id" :: attribution_keys) ->
  (forall b, In b pre -> name_is key b <> Ok true) ->
  (exists e, ga4Event order = Throw e)
  /\ forall env net req,
       method req = "POST" ->
       verifyShopifyHmac env req (Spec.raw_body req) = Ok true ->
       JSON.parse (Spec.raw_body req) = Ok order ->
       handler env net req start = (Ok tt, World [ Spec.internal_error ] []).
Proof.
  intros Hattr Hbad Hkey Hpre.
  assert (Hget : exists e, getAttr order key = Throw e).
  { unfold getAttr. rewrite Hattr. cbn [array_find].
    destruct (LookupFacts.find_first_throws (name_is key) bad post TypeError pre Hpre
                (LookupFacts.name_is_malformed key bad Hbad)) as (e & He).
    rewrite He. LookupFacts.thrown. }
  assert (Hev : exists e, ga4Event order = Throw e).
  { unfold ga4Event. destruct Hkey as [<-|Hkey].
    - unfold clientId. destruct Hget as (e & ->). LookupFacts.thrown.
    - destruct (clientId order) as [cid|e]; [cbn [bind]|LookupFacts.thrown].
      destruct (LookupFacts.map_result_throws
                  (fun k => v <- getAttr order k ||| Ok VNull ;; Ok (k, v))
                  key attribution_keys Hkey) as (e & He).
      { destruct Hget as (e & ->). LookupFacts.thrown. }
      unfold attribution. rewrite He. LookupFacts.thrown. }
  split; [exact Hev|].
  intros env net req Hm Hv Hp. destruct Hev as (e & He).
  rewrite HandlerFacts.handler_outcome. unfold Spec.outcome.
  rewrite Hm, Hv, Hp, He. reflexivity.
Qed.

Lemma unreadable_attribute_fails_witness :
  attributes More.null_attribute_order
  = VArr ([ More.attribute "gclid" "abc" ] ++ VNull :: [])
  /\ exists e, ga4Event More.null_attribute_order = Throw e.
Proof.
  split; [reflexivity|].
  apply (unreadable_attribute_fails More.null_attribute_order "client_id"
           [ More.attribute "gclid" "abc" ] VNull []).
  - reflexivity.
  - reflexivity.
  - simpl. auto.
  - intros b [<-|[]]. vm_compute. discriminate.
Defined.

(** X8. The user identifier is the customer's email: the envelope has the
    key user_id, with the email as its value, exactly when the email is
    truthy; a missing customer, a missing or an empty email leave the key
    out. *)
Theorem user_id_is_the_email (order ev : value) :
  ga4Event order = Ok ev ->
  exists fields,
    ev = VObj fields
    /\ (truthy (get_opt (get_opt order "customer") "email") = true ->
        lookup "user_id" fields = Some (get_opt (get_opt order "customer") "email"))
    /\ (truthy (get_opt (get_opt order "customer") "email") = false ->
        lookup "user_id" fields = None).
Proof.
  intros H. apply MappingFacts.ga4Event_ok in H.
  destruct H as (cid & attr & its & cs & ps & _ & _ & _ & _ & _ & ->).
  eexists. split; [reflexivity|].
  unfold userId, spread_if, or_val.
  destruct (truthy (get_opt (get_opt order "customer") "email")) eqn:He.
  - rewrite He. split; [reflexivity|discriminate].
  - cbn [truthy]. split; [discriminate|reflexivity].
Qed.

Lemma user_id_is_the_email_witness :
  ga4Event Sample.scenario_order = Ok Sample.scenario_event
  /\ prop Sample.scenario_event "user_id" = VStr "a@b.com"
  /\ prop Sample.plain_event "user_id" = VUndefined
  /\ exists fields,
       Sample.scenario_event = VObj fields
       /\ (truthy (get_opt (get_opt Sample.scenario_order "customer") "email") = true ->
           lookup "user_id" fields
           = Some (get_opt (get_opt Sample.scenario_order "customer") "email"))
       /\ (truthy (get_opt (get_opt Sample.scenario_order "customer") "email") = false ->
           lookup "user_id" fields = None).
Proof.
  split; [vm_compute; reflexivity|].
  split; [reflexivity|]. split; [reflexivity|].
  apply (user_id_is_the_email Sample.scenario_order Sample.scenario_event).
  vm_compute; reflexivity.
Defined.

(** X9. An attribution key is in the params object exactly when the value
    of its attribute is truthy, and then with that value: an attribute that
    is there with an empty value is left out like a missing one. *)
Theorem attribution_follows_attributes (order ev : value) (k : string) :
  In k attribution_keys ->
  ga4Event order = Ok ev ->
  exists v ps,
    getAttr order k = Ok v
    /\ Spec.event_params ev = VObj ps
    /\ (truthy v = true -> lookup k ps = Some v)
    /\ (truthy v = false -> lookup k ps = None).
Proof.
  intros Hk H. apply MappingFacts.ga4Event_ok in H.
  destruct H as (cid & attr & its & cs & ps & _ & Hattr & Hits & _ & Hps & ->).
  apply MappingFacts.items_ok in Hits. destruct Hits as (Hord & _).
  rewrite (MappingFacts.params_eq _ _ _ Hord) in Hps.
  apply JSFacts.bind_ok in Hps. destruct Hps as (tid & _ & Hps).
  apply JSFacts.bind_ok in Hps. destruct Hps as (v0 & _ & Hps).
  apply JSFacts.bind_ok in Hps. destruct Hps as (t & _ & Hps).
  apply JSFacts.bind_ok in Hps. destruct Hps as (sh & _ & Hps).
  inversion Hps; subst ps; clear Hps.
  destruct (LookupFacts.attribution_ok _ _ Hattr) as (Hkeys & Hall).
  destruct (Hall k Hk) as (v & Hv & Hin).
  exists v. eexists. split; [exact Hv|].
  split; [apply MappingFacts.envelope_params|].
  assert (Hnd : NoDup (List.map fst attr)).
  { rewrite Hkeys. unfold attribution_keys.
    repeat (constructor; [simpl; intuition discriminate|]). constructor. }
  pose proof (LookupFacts.lookup_spread k _ attr Hnd Hin) as Hl.
  assert (Hbase : forall rest,
             lookup k ([ ("transaction_id", tid); ("value", VNum v0);
                         ("currency",
                          or_val (or_val (prop order "currency")
                                    (prop order "presentment_currency")) (VStr "INR"));
                         ("tax", VNum t); ("shipping", VNum sh);
                         ("coupon",
                          or_val (get_opt (get_opt (prop order "discount_codes") "0") "code")
                            VUndefined);
                         ("items", its) ] ++ rest)%list
             = lookup k rest).
  { intros rest. simpl in Hk.
    repeat (destruct Hk as [<-|Hk]; [reflexivity|]). contradiction. }
  cbn [app] in Hbase. rewrite !Hbase, Hl. unfold or_val.
  destruct (truthy v) eqn:Ht.
  - rewrite Ht. split; [reflexivity|discriminate].
  - cbn [truthy]. split; [discriminate|reflexivity].
Qed.

Lemma attribution_follows_attributes_witness :
  ga4Event More.empty_gclid_order = Ok More.empty_gclid_event
  /\ prop (Spec.event_params More.empty_gclid_event) "gclid" = VUndefined
  /\ prop (Spec.event_params More.empty_gclid_event) "utm_source" = VStr "mail"
  /\ exists v ps,
       getAttr More.empty_gclid_order "gclid" = Ok v
       /\ Spec.event_params More.empty_gclid_event = VObj ps
       /\ (truthy v = true -> lookup "gclid" ps = Some v)
       /\ (truthy v = false -> lookup "gclid" ps = None).
Proof.
  split; [vm_compute; reflexivity|].
  split; [reflexivity|]. split; [reflexivity|].
  apply (attribution_follows_attributes More.empty_gclid_order);
    [simpl; auto | vm_compute; reflexivity].
Defined.

(** * Further properties of the event *)

Module ShapeFacts.

Lemma Forall2_nth {A B : Type} (R : A -> B -> Prop) :
  forall l0 l, Forall2 R l0 l ->
    forall i x, nth_error l0 i = Some x -> exists y, nth_error l i = Some y /\ R x y.
Proof.
  induction 1 as [|x0 y0 l0 l Hxy _ IH]; intros i x Hi.
  - destruct i; discriminate.
  - destruct i as [|i]; simpl in Hi.
    + inversion Hi; subst. exists y0. split; [reflexivity|assumption].
    + apply (IH i x Hi).
Qed.

Lemma String_is_text (v s : value) : String_ v = Ok s -> exists t, ToString v = Ok t /\ s = VStr t.
Proof.
  unfold String_. intros H. apply JSFacts.bind_ok in H. destruct H as (t & Ht & H).
  inversion H. eauto.
Qed.

Lemma envelope_fixed (cs uid ps : value) :
  let ev := VObj ([ ("client_id", cs) ]
                  ++ spread_if "user_id" uid
                  ++ [ ("non_personalized_ads", VBool false);
                       ("events", VArr [ VObj [ ("name", VStr "purchase");
                                                ("params", ps) ] ]) ])%list in
  prop ev "non_personalized_ads" = VBool false
  /\ prop ev "events" = VArr [ VObj [ ("name", VStr "purchase"); ("params", ps) ] ].
Proof. unfold spread_if. destruct (truthy uid); split; reflexivity. Qed.

(** The params object, once the order is known to be mapped. *)
Lemma params_ok (order : value) (attr : list (string * value)) (its ps : value) :
  nullish order = false ->
  params order attr its = Ok ps ->
  exists tid v t sh,
    ToString (prop order "id") = Ok tid
    /\ ps = VObj ([ ("transaction_id", VStr tid);
                    ("value", VNum v);
                    ("currency",
                     or_val (or_val (prop order "currency")
                               (prop order "presentment_currency")) (VStr "INR"));
                    ("tax", VNum t);
                    ("shipping", VNum sh);
                    ("coupon",
                     or_val (get_opt (get_opt (prop order "discount_codes") "0") "code")
                       VUndefined);
                    ("items", its) ]
                  ++ flat_map (fun kv => spread_if (fst kv) (snd kv)) attr)%list.
Proof.
  intros Hord Hps. rewrite (MappingFacts.params_eq _ _ _ Hord) in Hps.
  apply JSFacts.bind_ok in Hps. destruct Hps as (tidv & Htid & Hps).
  apply JSFacts.bind_ok in Hps. destruct Hps as (v & _ & Hps).
  apply JSFacts.bind_ok in Hps. destruct Hps as (t & _ & Hps).
  apply JSFacts.bind_ok in Hps. destruct Hps as (sh & _ & Hps).
  destruct (String_is_text _ _ Htid) as (tid & Ht & ->).
  exists tid, v, t, sh. split; [assumption|]. now inversion Hps.
Qed.

Lemma or_chain_two (a b : value) : or_val a b = More.or_chain a [b].
Proof. reflexivity. Qed.

Lemma or_chain_four (a b c d : value) :
  or_val (or_val (or_val a b) c) d = More.or_chain a [b; c; d].
Proof.
  unfold or_val. cbn [More.or_chain].
  destruct (truthy a) eqn:Ha; cbv iota; rewrite ?Ha; [reflexivity|].
  destruct (truthy b) eqn:Hb; cbv iota; rewrite ?Hb; reflexivity.
Qed.

End ShapeFacts.

(** X10. The shape of every event that is built: client_id is a string,
    non_personalized_ads is false, events holds exactly one event, named
    purchase, whose params carry the order id in string form as
    transaction_id and a list as items. *)
Theorem envelope_shape (order ev : value) :
  ga4Event order = Ok ev ->
  exists cs tid ps l,
    prop ev "client_id" = VStr cs
    /\ prop ev "non_personalized_ads" = VBool false
    /\ prop ev "events" = VArr [ VObj [ ("name", VStr "purchase"); ("params", VObj ps) ] ]
    /\ ToString (prop order "id") = Ok tid
    /\ lookup "transaction_id" ps = Some (VStr tid)
    /\ lookup "items" ps = Some (VArr l).
Proof.
  intros H. apply MappingFacts.ga4Event_ok in H.
  destruct H as (cid & attr & its & cs & ps & _ & _ & Hits & Hcs & Hps & ->).
  destruct (MappingFacts.items_ok _ _ Hits) as (Hord & l0 & l & _ & _ & ->).
  destruct (ShapeFacts.params_ok _ _ _ _ Hord Hps) as (tid & v & t & sh & Htid & ->).
  destruct (ShapeFacts.String_is_text _ _ Hcs) as (c & _ & ->).
  exists c, tid. eexists. exists l.
  split; [apply MappingFacts.envelope_client_id|].
  destruct (ShapeFacts.envelope_fixed (VStr c) (userId order)
              (VObj ([ ("transaction_id", VStr tid); ("value", VNum v);
                       ("currency",
                        or_val (or_val (prop order "currency")
                                  (prop order "presentment_currency")) (VStr "INR"));
                       ("tax", VNum t); ("shipping", VNum sh);
                       ("coupon",
                        or_val (get_opt (get_opt (prop order "discount_codes") "0") "code")
                          VUndefined);
                       ("items", VArr l) ]
                     ++ flat_map (fun kv => spread_if (fst kv) (snd kv)) attr)%list))
    as (Hnpa & Hevents).
  split; [exact Hnpa|]. split; [exact Hevents|].
  split; [exact Htid|]. split; reflexivity.
Qed.

Lemma envelope_shape_witness :
  ga4Event More.two_line_order = Ok More.two_line_event
  /\ exists cs tid ps l,
       prop More.two_line_event "client_id" = VStr cs
       /\ prop More.two_line_event "non_personalized_ads" = VBool false
       /\ prop More.two_line_event "events"
          = VArr [ VObj [ ("name", VStr "purchase"); ("params", VObj ps) ] ]
       /\ ToString (prop More.two_line_order "id") = Ok tid
       /\ lookup "transaction_id" ps = Some (VStr tid)
       /\ lookup "items" ps = Some (VArr l).
Proof.
  split; [vm_compute; reflexivity|].
  apply (envelope_shape More.two_line_order). vm_compute; reflexivity.
Defined.

(** X11. The items of the event follow the line items of the order: as many,
    in the same order, each the normalization of the line item at its
    position; an order whose line_items is falsy gets the empty list. *)
Theorem items_follow_line_items (order ev : value) :
  ga4Event order = Ok ev ->
  exists l0 l,
    or_val (prop order "line_items") (VArr []) = VArr l0
    /\ prop (Spec.event_params ev) "items" = VArr l
    /\ List.length l = List.length l0
    /\ forall i x, nth_error l0 i = Some x ->
                   exists y, nth_error l i = Some y /\ line_item order x = Ok y.
Proof.
  intros H. apply MappingFacts.ga4Event_ok in H.
  destruct H as (cid & attr & its & cs & ps & _ & _ & Hits & _ & Hps & ->).
  destruct (MappingFacts.items_ok _ _ Hits) as (Hord & l0 & l & Hl0 & Hmap & ->).
  destruct (ShapeFacts.params_ok _ _ _ _ Hord Hps) as (tid & v & t & sh & _ & ->).
  exists l0, l. split; [assumption|].
  rewrite MappingFacts.envelope_params.
  split; [reflexivity|].
  split; [symmetry; apply (Forall2_length Hmap)|].
  apply (ShapeFacts.Forall2_nth _ _ _ Hmap).
Qed.

Lemma items_follow_line_items_witness :
  ga4Event More.two_line_order = Ok More.two_line_event
  /\ prop (Spec.event_params More.two_line_event) "items"
     = VArr [ Sample.widget_item; More.named_item ]
  /\ exists l0 l,
       or_val (prop More.two_line_order "line_items") (VArr []) = VArr l0
       /\ prop (Spec.event_params More.two_line_event) "items" = VArr l
       /\ List.length l = List.length l0
       /\ forall i x, nth_error l0 i = Some x ->
                      exists y, nth_error l i = Some y
                                /\ line_item More.two_line_order x = Ok y.
Proof.
  split; [vm_compute; reflexivity|]. split; [vm_compute; reflexivity|].
  apply (items_follow_line_items More.two_line_order). vm_compute; reflexivity.
Defined.

(** X12. A line item that is not an object (a number, a string, a boolean, a
    list) is not refused: it is normalized to the item with id "undefined",
    no name, quantity 1 and price 0. *)
Theorem non_object_line_item (order item : value) :
  nullish item = false ->
  (forall ps, item <> VObj ps) ->
  line_item order item
  = Ok (VObj [ ("item_id", VStr "undefined");
               ("item_name", VUndefined);
               ("quantity", VNum Num.one);
               ("price", VNum Num.zero);
               ("item_brand",
                or_val (get_opt (get_opt order "line_items") "vendor") VUndefined);
               ("item_variant", VUndefined) ]).
Proof.
  intros Hn Hobj. rewrite (MappingFacts.line_item_eq _ _ Hn).
  assert (Hprop : forall k, array_index k = None -> prop item k = VUndefined).
  { intros k Hk. destruct item as [| |b|n|s|l|ps]; try reflexivity.
    - cbn [prop]. now rewrite Hk.
    - cbn [prop]. now rewrite Hk.
    - exfalso. now apply (Hobj ps). }
  unfold Spec.nested_amount.
  rewrite !Hprop by reflexivity.
  reflexivity.
Qed.

Lemma non_object_line_item_witness :
  line_item (VObj []) (VNum (Num.of_Z 3))
  = Ok (VObj [ ("item_id", VStr "undefined");
               ("item_name", VUndefined);
               ("quantity", VNum Num.one);
               ("price", VNum Num.zero);
               ("item_brand", VUndefined);
               ("item_variant", VUndefined) ]).
Proof.
  apply (non_object_line_item (VObj []) (VNum (Num.of_Z 3))).
  - reflexivity.
  - intros ps H. discriminate H.
Defined.

(** X13. An order that is not an object, but is not null either (a number, a
    string, a boolean, a list), is mapped like the empty object: to the event
    whose client_id and transaction_id are "undefined", with no items. *)
Theorem non_object_order_maps_as_empty (order : value) :
  nullish order = false ->
  (forall ps, order <> VObj ps) ->
  ga4Event order = Ok Sample.empty_object_event.
Proof.
  intros Hn Hobj.
  destruct order as [| |b|n|s|l|ps]; try discriminate.
  - vm_compute. reflexivity.
  - vm_compute. reflexivity.
  - vm_compute. reflexivity.
  - vm_compute. reflexivity.
  - exfalso. now apply (Hobj ps).
Qed.

Lemma non_object_order_maps_as_empty_witness :
  ga4Event (VArr [ VNum Num.one ]) = Ok Sample.empty_object_event
  /\ prop Sample.empty_object_event "client_id" = VStr "undefined".
Proof.
  split; [|reflexivity].
  apply (non_object_order_maps_as_empty (VArr [ VNum Num.one ])).
  - reflexivity.
  - intros ps H. discriminate H.
Defined.

(** X14. The price of a line item is read from the first truthy of its flat
    price and its nested shop-money amount, in this order: a flat price that
    is there but is not numeric gives 0 even when the nested amount is
    numeric. *)
Theorem price_prefers_flat_field (order item it : value) :
  line_item order item = Ok it ->
  exists n,
    Spec.numeric_field [ prop item "price"; Spec.nested_amount item "price_set" ] = Ok n
    /\ prop it "price" = VNum n
    /\ (forall s, prop item "price" = VStr s -> s <> EmptyString ->
                  toNumber (VStr s) Num.zero = Ok n).
Proof.
  intros H.
  destruct (nullish item) eqn:Hitem.
  { rewrite (MappingFacts.line_item_nullish _ _ Hitem) in H. discriminate. }
  rewrite (MappingFacts.line_item_eq _ _ Hitem) in H.
  apply JSFacts.bind_ok in H. destruct H as (item_id & _ & H).
  apply JSFacts.bind_ok in H. destruct H as (price & Hprice & H).
  inversion H; subst it; clear H. exists price.
  split; [|split; [reflexivity|]].
  - rewrite <- Hprice. unfold Spec.numeric_field, Spec.first_present, or_val.
    destruct (truthy (prop item "price")) eqn:Hp; cbv iota; rewrite ?Hp; [reflexivity|].
    destruct (truthy (Spec.nested_amount item "price_set")) eqn:Hq; cbv iota; rewrite ?Hq;
      reflexivity.
  - intros s Hs Hne. rewrite <- Hprice. unfold or_val. rewrite Hs. cbn [truthy].
    destruct (String.eqb s EmptyString) eqn:He.
    + apply String.eqb_eq in He. contradiction.
    + cbn [negb truthy]. rewrite He. reflexivity.
Qed.

Lemma price_prefers_flat_field_witness :
  line_item (VObj []) More.twice_priced = Ok More.twice_priced_item
  /\ prop More.twice_priced_item "price" = VNum Num.zero
  /\ Spec.nested_amount More.twice_priced "price_set" = VStr "9.99"
  /\ exists n,
       Spec.numeric_field [ prop More.twice_priced "price";
                            Spec.nested_amount More.twice_priced "price_set" ] = Ok n
       /\ prop More.twice_priced_item "price" = VNum n
       /\ (forall s, prop More.twice_priced "price" = VStr s -> s <> EmptyString ->
                     toNumber (VStr s) Num.zero = Ok n).
Proof.
  split; [vm_compute; reflexivity|].
  split; [reflexivity|]. split; [reflexivity|].
  apply (price_prefers_flat_field (VObj []) More.twice_priced). vm_compute; reflexivity.
Defined.

(** * Further failures of the mapping *)

Module FailureFacts.

(** A mapping that throws is answered with 500, and nothing is forwarded. *)
Lemma thrown_mapping_answers_500 (env : environment) (net : network) (req : request)
  (order : value) :
  method req = "POST" ->
  verifyShopifyHmac env req (Spec.raw_body req) = Ok true ->
  JSON.parse (Spec.raw_body req) = Ok order ->
  (exists e, ga4Event order = Throw e) ->
  handler env net req start = (Ok tt, World [ Spec.internal_error ] []).
Proof.
  intros Hm Hv Hp (e & He).
  rewrite HandlerFacts.handler_outcome. unfold Spec.outcome.
  rewrite Hm, Hv, Hp, He. reflexivity.
Qed.

Lemma array_map_not_a_list (v : value) (f : value -> result value) :
  (forall l, v <> VArr l) -> array_map v f = Throw TypeError.
Proof.
  intros H. destruct v as [| |b|n|s|l|ps]; try reflexivity.
  exfalso. now apply (H l).
Qed.

Lemma array_find_not_a_list (v : value) (p : value -> result bool) :
  (forall l, v <> VArr l) -> array_find v p = Throw TypeError.
Proof.
  intros H. destruct v as [| |b|n|s|l|ps]; try reflexivity.
  exfalso. now apply (H l).
Qed.

Lemma get_opt_truthy_present (v : value) (k : string) :
  truthy (get_opt v k) = true -> nullish v = false.
Proof. unfold get_opt. destruct (nullish v); [discriminate|reflexivity]. Qed.

Lemma items_thrown (order : value) :
  (exists e, items order = Throw e) -> exists e, ga4Event order = Throw e.
Proof.
  intros (e & He). unfold ga4Event.
  destruct (clientId order) as [cid|e1]; cbn [bind]; [|LookupFacts.thrown].
  destruct (attribution order) as [attr|e2]; cbn [bind]; [|LookupFacts.thrown].
  rewrite He. LookupFacts.thrown.
Qed.

End FailureFacts.

(** X15. Line items that cannot be read fail the whole order: when
    line_items is truthy but not a list, or is a list that holds null, the
    mapping throws; the handler then answers 500 and forwards nothing. *)
Theorem unreadable_line_items_fail (order : value) :
  (truthy (get_opt order "line_items") = true
   /\ forall l, get_opt order "line_items" <> VArr l)
  \/ (exists l, get_opt order "line_items" = VArr l
                /\ Exists (fun x => nullish x = true) l) ->
  (exists e, ga4Event order = Throw e)
  /\ forall env net req,
       method req = "POST" ->
       verifyShopifyHmac env req (Spec.raw_body req) = Ok true ->
       JSON.parse (Spec.raw_body req) = Ok order ->
       handler env net req start = (Ok tt, World [ Spec.internal_error ] []).
Proof.
  intros H.
  assert (Hev : exists e, ga4Event order = Throw e).
  { apply FailureFacts.items_thrown.
    assert (Ht : truthy (get_opt order "line_items") = true).
    { destruct H as [[Ht _]|(l & -> & _)]; [assumption|reflexivity]. }
    pose proof (FailureFacts.get_opt_truthy_present _ _ Ht) as Hord.
    rewrite (JSFacts.get_opt_present _ _ Hord) in H, Ht.
    unfold items. rewrite (JSFacts.get_member_present _ _ Hord). cbn [bind].
    unfold or_else. rewrite Ht. cbn [bind].
    destruct H as [[_ Hnl]|(l & Hl & Hex)].
    - rewrite (FailureFacts.array_map_not_a_list _ _ Hnl). LookupFacts.thrown.
    - rewrite Hl. cbn [array_map].
      apply Exists_exists in Hex. destruct Hex as (x & Hin & Hx).
      destruct (LookupFacts.map_result_throws (line_item order) x l Hin) as (e & He).
      { exists TypeError. now apply MappingFacts.line_item_nullish. }
      rewrite He. LookupFacts.thrown. }
  split; [exact Hev|].
  intros env net req Hm Hv Hp.
  now apply (FailureFacts.thrown_mapping_answers_500 env net req order).
Qed.

Lemma unreadable_line_items_fail_witness :
  get_opt More.text_lines_order "line_items" = VStr "none"
  /\ exists e, ga4Event More.text_lines_order = Throw e.
Proof.
  split; [reflexivity|].
  apply (unreadable_line_items_fail More.text_lines_order).
  left. split; [reflexivity|]. intros l H. discriminate H.
Defined.

(** X16. Tracking attributes that are truthy but not a list fail the whole
    order: the first lookup throws a TypeError; the handler then answers 500
    and forwards nothing. *)
Theorem unreadable_attributes_fail (order : value) :
  truthy (get_opt order "note_attributes") = true ->
  (forall l, get_opt order "note_attributes" <> VArr l) ->
  ga4Event order = Throw TypeError
  /\ forall env net req,
       method req = "POST" ->
       verifyShopifyHmac env req (Spec.raw_body req) = Ok true ->
       JSON.parse (Spec.raw_body req) = Ok order ->
       handler env net req start = (Ok tt, World [ Spec.internal_error ] []).
Proof.
  intros Ht Hnl.
  assert (Hev : ga4Event order = Throw TypeError).
  { unfold ga4Event, clientId, getAttr, attributes, or_val. rewrite Ht.
    rewrite (FailureFacts.array_find_not_a_list _ _ Hnl). reflexivity. }
  split; [exact Hev|].
  intros env net req Hm Hv Hp.
  apply (FailureFacts.thrown_mapping_answers_500 env net req order); try assumption.
  now exists TypeError.
Qed.

Lemma unreadable_attributes_fail_witness :
  get_opt More.text_attributes_order "note_attributes" = VStr "none"
  /\ ga4Event More.text_attributes_order = Throw TypeError.
Proof.
  split; [reflexivity|].
  apply (unreadable_attributes_fail More.text_attributes_order).
  - reflexivity.
  - intros l H. discriminate H.
Defined.

(** X17. toNumber on a value that is not text or a number: a boolean and an
    object give the fallback, except that an object with a key toString
    makes the conversion throw; so a line item with such a price fails the
    mapping rather than being priced 0. *)
Theorem toNumber_of_non_numbers (fallback : Num.number) :
  (forall b, toNumber (VBool b) fallback = Ok fallback)
  /\ (forall ps, toNumber (VObj ps) fallback
                 = if has_key "toString" ps then Throw TypeError else Ok fallback)
  /\ (forall order item ps,
        prop item "price" = VObj ps -> has_key "toString" ps = true ->
        exists e, line_item order item = Throw e).
Proof.
  split; [|split].
  - intros [|]; reflexivity.
  - intros ps. unfold toNumber, parseFloat. cbn [ToString].
    destruct (has_key "toString" ps); reflexivity.
  - intros order item ps Hp Hk.
    destruct (nullish item) eqn:Hitem.
    { exists TypeError. now apply MappingFacts.line_item_nullish. }
    rewrite (MappingFacts.line_item_eq _ _ Hitem).
    destruct (String_ _) as [item_id|e] eqn:Hid; cbn [bind]; [|LookupFacts.thrown].
    unfold or_val. rewrite Hp. cbn [truthy].
    unfold toNumber, parseFloat. cbn [ToString]. rewrite Hk. LookupFacts.thrown.
Qed.

Example odd_price_is_refused :
  prop More.odd_price "price" = VObj [ ("toString", VNum Num.one) ]
  /\ line_item (VObj []) More.odd_price = Throw TypeError
  /\ toNumber (VObj []) Num.zero = Ok Num.zero.
Proof. repeat split. Qed.

(** X18. The identity of a line item: item_id is the string form of the
    first truthy of product_id, sku and variant_id, and of id when none is
    (so it is "undefined" when all four are missing); item_name is the title
    when truthy and the name otherwise; item_variant is the variant title
    when truthy and undefined otherwise. *)
Theorem item_identity (order item it : value) :
  line_item order item = Ok it ->
  exists s,
    ToString (More.or_chain (prop item "product_id")
                [ prop item "sku"; prop item "variant_id"; prop item "id" ]) = Ok s
    /\ prop it "item_id" = VStr s
    /\ prop it "item_name" = More.or_chain (prop item "title") [ prop item "name" ]
    /\ prop it "item_variant"
       = More.or_chain (prop item "variant_title") [ VUndefined ]
    /\ (truthy (prop item "product_id") = false -> truthy (prop item "sku") = false ->
        truthy (prop item "variant_id") = false ->
        ToString (prop item "id") = Ok s).
Proof.
  intros H.
  destruct (nullish item) eqn:Hitem.
  { rewrite (MappingFacts.line_item_nullish _ _ Hitem) in H. discriminate. }
  rewrite (MappingFacts.line_item_eq _ _ Hitem) in H.
  apply JSFacts.bind_ok in H. destruct H as (item_id & Hid & H).
  apply JSFacts.bind_ok in H. destruct H as (price & _ & H).
  inversion H; subst it; clear H.
  destruct (ShapeFacts.String_is_text _ _ Hid) as (s & Hs & ->).
  rewrite ShapeFacts.or_chain_four in Hs.
  exists s. split; [exact Hs|]. split; [reflexivity|]. split; [reflexivity|].
  split; [reflexivity|].
  intros Hp Hk Hv. cbn [More.or_chain] in Hs. now rewrite Hp, Hk, Hv in Hs.
Qed.

Lemma item_identity_witness :
  line_item (VObj []) More.named = Ok More.named_item
  /\ prop More.named_item "item_id" = VStr "SKU-1"
  /\ prop More.named_item "item_name" = VStr "Mug"
  /\ exists s,
       ToString (More.or_chain (prop More.named "product_id")
                   [ prop More.named "sku"; prop More.named "variant_id";
                     prop More.named "id" ]) = Ok s
       /\ prop More.named_item "item_id" = VStr s
       /\ prop More.named_item "item_name"
          = More.or_chain (prop More.named "title") [ prop More.named "name" ]
       /\ prop More.named_item "item_variant"
          = More.or_chain (prop More.named "variant_title") [ VUndefined ]
       /\ (truthy (prop More.named "product_id") = false ->
           truthy (prop More.named "sku") = false ->
           truthy (prop More.named "variant_id") = false ->
           ToString (prop More.named "id") = Ok s).
Proof.
  split; [vm_compute; reflexivity|].
  split; [reflexivity|]. split; [reflexivity|].
  apply (item_identity (VObj []) More.named). vm_compute; reflexivity.
Defined.

(** X19. The coupon is the code of the first discount code only, and only
    when that code is truthy: further discount codes are never read, and an
    order without discount codes has an undefined coupon. *)
Theorem coupon_is_first_code (order ev : value) :
  ga4Event order = Ok ev ->
  (forall d rest, prop order "discount_codes" = VArr (d :: rest) ->
                  prop (Spec.event_params ev) "coupon"
                  = More.or_chain (get_opt d "code") [ VUndefined ])
  /\ (truthy (prop order "discount_codes") = false
      \/ prop order "discount_codes" = VArr [] ->
      prop (Spec.event_params ev) "coupon" = VUndefined).
Proof.
  intros H. apply MappingFacts.ga4Event_ok in H.
  destruct H as (cid & attr & its & cs & ps & _ & _ & Hits & _ & Hps & ->).
  destruct (MappingFacts.items_ok _ _ Hits) as (Hord & _).
  destruct (ShapeFacts.params_ok _ _ _ _ Hord Hps) as (tid & v & t & sh & _ & ->).
  rewrite MappingFacts.envelope_params. cbn [prop app lookup String.eqb Ascii.eqb Bool.eqb].
  split.
  - intros d rest ->. reflexivity.
  - intros [Hf| ->]; [|reflexivity].
    destruct (prop order "discount_codes") as [| |b|n|s|l|ps]; try discriminate;
      try reflexivity.
    destruct s; [reflexivity|discriminate].
Qed.

Lemma coupon_is_first_code_witness :
  ga4Event More.two_line_order = Ok More.two_line_event
  /\ prop (Spec.event_params More.two_line_event) "coupon" = VStr "SPRING"
  /\ (forall d rest, prop More.two_line_order "discount_codes" = VArr (d :: rest) ->
                     prop (Spec.event_params More.two_line_event) "coupon"
                     = More.or_chain (get_opt d "code") [ VUndefined ])
  /\ (truthy (prop More.two_line_order "discount_codes") = false
      \/ prop More.two_line_order "discount_codes" = VArr [] ->
      prop (Spec.event_params More.two_line_event) "coupon" = VUndefined).
Proof.
  split; [vm_compute; reflexivity|]. split; [reflexivity|].
  apply (coupon_is_first_code More.two_line_order). vm_compute; reflexivity.
Defined.

(** X20. Unset configuration is never an error. An unset measurement id or
    API secret is written into the endpoint as the text undefined, an unset
    webhook secret is the empty secret, and the handler replies and calls
    exactly as it does in the environment where these texts are set. *)
Theorem unset_configuration_is_not_checked
  (env : environment) (net : network) (req : request) :
  (env_GA4_MEASUREMENT_ID env = None -> env_GA4_API_SECRET env = None ->
   GA4_ENDPOINT env
   = "https://www.google-analytics.com/mp/collect?measurement_id=undefined&api_secret=undefined")
  /\ handler env net req start = handler (More.spelled_out env) net req start.
Proof.
  split.
  - intros Hm Hs. unfold GA4_ENDPOINT, MEASUREMENT_ID, API_SECRET. rewrite Hm, Hs.
    reflexivity.
  - rewrite !HandlerFacts.handler_outcome.
    destruct env as [[m|] [a|] [s|] d]; reflexivity.
Qed.
